(** * URPX converter: a shallow embedding of [converter2.py]

    The development follows the conversion core of the program: the label
    resolver [get_label], the tree flattener [_walk_pretty], the two
    serialisers [urpx_to_script] and [urpx_to_txt], and the dispatching
    [Job.run].  Of the Tk user interface only the state of the window and
    the handlers that change it are modelled.

    Conventions.
    - Python [str] values are [string]s whose characters are ASCII code
      points (below 128) or lone surrogates.  Case mapping, whitespace and
      line boundaries are modelled for the ASCII range; the character of
      code [128 + k] stands for the lone surrogate [U+D800 + k], the kind
      of character [json.loads] can build that UTF-8 cannot encode: it is
      uncased, not blank and not a line boundary, and its [repr] is the
      escape of that code point.
    - A function that can raise returns a [result]; the exception classes
      are those of the Python runtime.
    - The interpreter bounds the nesting of calls.  The one recursion of
      the program, [_walk_pretty], takes the room it has: the number of
      calls of itself the interpreter still admits below the running one,
      each with what it calls in turn.
    - The file system is explicit state. *)

From Stdlib Require Import ZArith List Ascii String Bool Lia DecimalString.
From stdpp Require Import base option list strings gmap.

Local Open Scope string_scope.
Local Open Scope list_scope.
Local Open Scope nat_scope.

(** ** Python string primitives *)

Module PyStr.

Definition code (c : ascii) : nat := nat_of_ascii c.

(** [str.isspace] on one ASCII character: TAB, LF, VT, FF, CR, the four
    separators FS GS RS US, and the space. *)
Definition is_space (c : ascii) : bool :=
  let n := code c in
  ((9 <=? n) && (n <=? 13)) || ((28 <=? n) && (n <=? 32)).

Fixpoint lstrip (s : string) : string :=
  match s with
  | String c s' => if is_space c then lstrip s' else s
  | EmptyString => EmptyString
  end.

Fixpoint rstrip (s : string) : string :=
  match s with
  | String c s' =>
      match rstrip s' with
      | EmptyString => if is_space c then EmptyString else String c EmptyString
      | r => String c r
      end
  | EmptyString => EmptyString
  end.

(** [s.strip()] *)
Definition strip (s : string) : string := rstrip (lstrip s).

Definition is_upper (c : ascii) : bool := (65 <=? code c) && (code c <=? 90).
Definition is_lower (c : ascii) : bool := (97 <=? code c) && (code c <=? 122).
Definition is_cased (c : ascii) : bool := is_upper c || is_lower c.

Definition to_upper (c : ascii) : ascii :=
  if is_lower c then ascii_of_nat (code c - 32) else c.
Definition to_lower (c : ascii) : ascii :=
  if is_upper c then ascii_of_nat (code c + 32) else c.

(** [s.title()]: a cased character that follows an uncased one (or starts
    the string) is put in upper case, a cased character that follows a
    cased one in lower case; other characters are kept. *)
Fixpoint title_from (previous_is_cased : bool) (s : string) : string :=
  match s with
  | String c s' =>
      let c' := if previous_is_cased then to_lower c else to_upper c in
      String c' (title_from (is_cased c) s')
  | EmptyString => EmptyString
  end.

Definition title (s : string) : string := title_from false s.

(** [s.startswith(p)] *)
Definition startswith (s p : string) : bool := String.prefix p s.

(** [s[n:]] *)
Fixpoint drop (n : nat) (s : string) : string :=
  match n, s with
  | S k, String _ s' => drop k s'
  | _, _ => s
  end.

(** [s[:n]] *)
Fixpoint take (n : nat) (s : string) : string :=
  match n, s with
  | S k, String c s' => String c (take k s')
  | _, _ => EmptyString
  end.

(** [s.replace(old, new)] for a non-empty [old]: occurrences are found
    left to right and do not overlap.  [skip] counts the characters of a
    matched occurrence that are still to be passed over. *)
Fixpoint replace_from (skip : nat) (old new s : string) : string :=
  match s with
  | String c s' =>
      match skip with
      | S k => replace_from k old new s'
      | O =>
          if String.prefix old s
          then new +:+ replace_from (String.length old - 1) old new s'
          else String c (replace_from 0 old new s')
      end
  | EmptyString => EmptyString
  end.

Definition replace (s old new : string) : string := replace_from 0 old new s.

(** [sep.join(parts)] *)
Definition join (sep : string) (parts : list string) : string :=
  String.concat sep parts.

(** [s * n] *)
Fixpoint repeat (s : string) (n : nat) : string :=
  match n with
  | O => EmptyString
  | S k => s +:+ repeat s k
  end.

(** [needle in hay] for two strings. *)
Fixpoint contains (hay needle : string) : bool :=
  String.prefix needle hay ||
  match hay with
  | String _ hay' => contains hay' needle
  | EmptyString => false
  end.

(** Line boundaries of [str.splitlines] in the ASCII range:
    LF, VT, FF, CR, FS, GS, RS (and CR LF as one boundary). *)
Definition is_linebreak (c : ascii) : bool :=
  let n := code c in
  ((10 <=? n) && (n <=? 13)) || ((28 <=? n) && (n <=? 30)).

Definition is_cr (c : ascii) : bool := code c =? 13.
Definition is_lf (c : ascii) : bool := code c =? 10.

(** [cur] is the line being read; [after_cr] says that the previous
    character was a CR, so that a LF now belongs to the same boundary. *)
Fixpoint splitlines_from (after_cr : bool) (cur s : string) : list string :=
  match s with
  | String c s' =>
      if after_cr && is_lf c then splitlines_from false cur s'
      else if is_linebreak c then cur :: splitlines_from (is_cr c) EmptyString s'
      else splitlines_from false (cur +:+ String c EmptyString) s'
  | EmptyString =>
      match cur with EmptyString => [] | _ => [cur] end
  end.

(** [s.splitlines()] *)
Definition splitlines (s : string) : list string :=
  splitlines_from false EmptyString s.

(** [s.rfind(".")], [None] standing for -1. *)
Fixpoint rfind (c : ascii) (s : string) : option nat :=
  match s with
  | String a s' =>
      match rfind c s' with
      | Some i => Some (S i)
      | None => if Ascii.eqb a c then Some 0 else None
      end
  | EmptyString => None
  end.

(** [repr] of a string: single quotes unless the text has a single quote
    and no double quote; backslash, the quote, TAB, LF and CR are escaped
    and the other control characters are written as x and two hex digits
    after a backslash. *)
Definition backslash : ascii := ascii_of_nat 92.
Definition squote : ascii := ascii_of_nat 39.
Definition dquote : ascii := ascii_of_nat 34.

Definition hex_digit (n : nat) : ascii :=
  if n <? 10 then ascii_of_nat (48 + n) else ascii_of_nat (87 + n).

Definition has_char (c : ascii) (s : string) : bool :=
  match rfind c s with Some _ => true | None => false end.

Definition escaped (s : string) : string := String backslash s.

Definition repr_char (quote c : ascii) : string :=
  let n := code c in
  if Ascii.eqb c quote || (n =? 92) then escaped (String c EmptyString)
  else if n =? 9 then escaped "t"
  else if n =? 10 then escaped "n"
  else if n =? 13 then escaped "r"
  else if (n <? 32) || (n =? 127)
       then escaped (String "x" (String (hex_digit (n / 16))
              (String (hex_digit (n mod 16)) EmptyString)))
  else if 128 <=? n
       then escaped ("ud8" +:+ String (hex_digit ((n - 128) / 16))
               (String (hex_digit ((n - 128) mod 16)) EmptyString))
  else String c EmptyString.

Fixpoint repr_body (quote : ascii) (s : string) : string :=
  match s with
  | String c s' => repr_char quote c +:+ repr_body quote s'
  | EmptyString => EmptyString
  end.

Definition repr (s : string) : string :=
  let quote : ascii :=
    if has_char squote s && negb (has_char dquote s) then dquote else squote in
  String quote (repr_body quote s +:+ String quote EmptyString).

(** [str(z)] for an [int]. *)
Definition of_int (z : Z) : string := NilZero.string_of_int (Z.to_int z).

(** [s.lower()] *)
Fixpoint lower (s : string) : string :=
  match s with
  | String c s' => String (to_lower c) (lower s')
  | EmptyString => EmptyString
  end.

(** [s.strip(chars)]: the characters of [chars] are taken off both ends. *)
Fixpoint lstrip_chars (chars s : string) : string :=
  match s with
  | String c s' => if has_char c chars then lstrip_chars chars s' else s
  | EmptyString => EmptyString
  end.

Fixpoint rstrip_chars (chars s : string) : string :=
  match s with
  | String c s' =>
      match rstrip_chars chars s' with
      | EmptyString => if has_char c chars then EmptyString else String c EmptyString
      | r => String c r
      end
  | EmptyString => EmptyString
  end.

Definition strip_chars (s chars : string) : string :=
  rstrip_chars chars (lstrip_chars chars s).

(** [s.split(sep)] for a non-empty [sep]: the pieces between the
    occurrences of [sep], found left to right, empty pieces included.
    [cur] is the piece being read, [skip] as in [replace_from]. *)
Fixpoint split_from (skip : nat) (sep cur s : string) : list string :=
  match s with
  | String c s' =>
      match skip with
      | S k => split_from k sep cur s'
      | O =>
          if String.prefix sep s
          then cur :: split_from (String.length sep - 1) sep EmptyString s'
          else split_from 0 sep (cur +:+ String c EmptyString) s'
      end
  | EmptyString => [cur]
  end.

Definition split (s sep : string) : list string := split_from 0 sep EmptyString s.

(** [s.split()]: the runs of characters that are not blanks. *)
Fixpoint split_blank_from (cur s : string) : list string :=
  match s with
  | String c s' =>
      if is_space c
      then match cur with
           | EmptyString => split_blank_from EmptyString s'
           | _ => cur :: split_blank_from EmptyString s'
           end
      else split_blank_from (cur +:+ String c EmptyString) s'
  | EmptyString =>
      match cur with EmptyString => [] | _ => [cur] end
  end.

Definition split_blank (s : string) : list string := split_blank_from EmptyString s.

End PyStr.

Definition LF : string := String (ascii_of_nat 10) EmptyString.
Definition CR : string := String (ascii_of_nat 13) EmptyString.

(** ** Python values and exceptions *)

(** The objects [json.loads] builds.  A [float] is carried by its printed
    form and by whether it is zero, the two things the program can observe
    of it.  A [dict] is the list of its items in insertion order; a lookup
    reads the first item with the key. *)
#[warnings="-register-all"]
Inductive value : Type :=
| VNone
| VBool (b : bool)
| VInt (z : Z)
| VFloat (is_zero : bool) (text : string)
| VStr (s : string)
| VList (items : list value)
| VDict (fields : list (string * value)).

Inductive exn : Type :=
| AttributeError
| TypeError
| KeyError
| IndexError
| JSONDecodeError
| OSError
| RecursionError
| UnicodeEncodeError.

Inductive result (A : Type) : Type :=
| Ok (a : A)
| Raise (e : exn).

Arguments Ok {A} a.
Arguments Raise {A} e.

#[global] Instance result_ret : MRet result := fun A a => Ok a.
#[global] Instance result_bind : MBind result := fun A B f m =>
  match m with
  | Ok a => f a
  | Raise e => Raise e
  end.

Definition returns {A} (m : result A) : bool :=
  match m with Ok _ => true | Raise _ => false end.

(** Induction on values that reaches the items of lists and dicts. *)
Section ValueInd.
Variable P : value -> Prop.
Hypothesis HNone : P VNone.
Hypothesis HBool : forall b, P (VBool b).
Hypothesis HInt : forall z, P (VInt z).
Hypothesis HFloat : forall b t, P (VFloat b t).
Hypothesis HStr : forall s, P (VStr s).
Hypothesis HList : forall items, Forall P items -> P (VList items).
Hypothesis HDict : forall fields, Forall (fun kv => P (snd kv)) fields -> P (VDict fields).

Fixpoint value_nested_ind (v : value) : P v :=
  match v with
  | VNone => HNone
  | VBool b => HBool b
  | VInt z => HInt z
  | VFloat b t => HFloat b t
  | VStr s => HStr s
  | VList items =>
      HList items
        ((fix all (l : list value) : Forall P l :=
            match l with
            | [] => @List.Forall_nil _ P
            | x :: l' => @List.Forall_cons _ P x l' (value_nested_ind x) (all l')
            end) items)
  | VDict fields =>
      HDict fields
        ((fix all (l : list (string * value)) : Forall (fun kv => P (snd kv)) l :=
            match l with
            | [] => @List.Forall_nil _ _
            | kv :: l' => @List.Forall_cons _ _ kv l' (value_nested_ind (snd kv)) (all l')
            end) fields)
  end.
End ValueInd.

(** Truth value of an object in a condition. *)
Definition truthy (v : value) : bool :=
  match v with
  | VNone => false
  | VBool b => b
  | VInt z => negb (Z.eqb z 0)
  | VFloat is_zero _ => negb is_zero
  | VStr s => negb (String.eqb s "")
  | VList items => match items with [] => false | _ => true end
  | VDict fields => match fields with [] => false | _ => true end
  end.

(** [repr(v)] and [str(v)]. *)
Fixpoint py_repr (v : value) : string :=
  match v with
  | VNone => "None"
  | VBool b => if b then "True" else "False"
  | VInt z => PyStr.of_int z
  | VFloat _ text => text
  | VStr s => PyStr.repr s
  | VList items => "[" +:+ PyStr.join ", " (map py_repr items) +:+ "]"
  | VDict fields =>
      "{" +:+ PyStr.join ", "
                (map (fun kv => PyStr.repr (fst kv) +:+ ": " +:+ py_repr (snd kv)) fields)
          +:+ "}"
  end.

Definition py_str (v : value) : string :=
  match v with
  | VStr s => s
  | _ => py_repr v
  end.

(** [v == s] for a string literal [s]. *)
Definition eq_str (v : value) (s : string) : bool :=
  match v with
  | VStr t => String.eqb t s
  | _ => false
  end.

(** *** Dictionaries *)

(** The item lookup, with what to do when the key is absent and when it is
    present. *)
Definition lookup_with {R : Type} (key : string) (absent : R) (present : value -> R)
  : list (string * value) -> R :=
  fix go (fields : list (string * value)) : R :=
    match fields with
    | [] => absent
    | (k, v) :: rest => if String.eqb k key then present v else go rest
    end.

Definition assoc (key : string) (fields : list (string * value)) : option value :=
  lookup_with key None Some fields.

(** [d.get(key, default)]; only a dict has the method. *)
Definition dict_get (d : value) (key : string) (default : value) : result value :=
  match d with
  | VDict fields => Ok (lookup_with key default (fun v => v) fields)
  | _ => Raise AttributeError
  end.

(** [key in d] for a string [key]: a key of a dict, a substring of a string,
    an item of a list; the other objects are not containers. *)
Definition py_contains (key : string) (d : value) : result bool :=
  match d with
  | VDict fields => Ok (lookup_with key false (fun _ => true) fields)
  | VStr s => Ok (PyStr.contains s key)
  | VList items => Ok (existsb (fun x => eq_str x key) items)
  | _ => Raise TypeError
  end.

(** [d[key]] for a string [key]. *)
Definition py_getitem (d : value) (key : string) : result value :=
  match d with
  | VDict fields => lookup_with key (Raise KeyError) Ok fields
  | _ => Raise TypeError
  end.

(** The items a [for] loop draws from an object: the items of a list, the
    keys of a dict, the characters of a string. *)
Definition py_iter (v : value) : result (list value) :=
  match v with
  | VList items => Ok items
  | VDict fields => Ok (map (fun kv => VStr (fst kv)) fields)
  | VStr s => Ok (map (fun c => VStr (String c EmptyString)) (list_ascii_of_string s))
  | _ => Raise TypeError
  end.

(** A loop whose body may raise: the first exception ends it. *)
Definition for_each {S : Type} (body : S -> value -> result S)
  : list value -> S -> result S :=
  fix go (items : list value) (st : S) : result S :=
    match items with
    | [] => Ok st
    | x :: rest =>
        match body st x with
        | Ok st' => go rest st'
        | Raise e => Raise e
        end
    end.

(** ** The label resolver *)

(** One turn of the loop over the fragments of a [programLabel] list
    (source lines 28-35): what the fragment appends to [parts], if anything. *)
Definition fragment_part (d : value) : result (option string) :=
  has_value ← py_contains "value" d;
  if (has_value : bool) then
    v ← py_getitem d "value";
    mret (Some (py_str v))
  else
    has_key ← py_contains "translationKey" d;
    if (has_key : bool) then
      key ← py_getitem d "translationKey";
      match key with
      | VStr k =>
          let k' := if PyStr.startswith k "program-node-label."
                    then PyStr.drop (String.length "program-node-label.") k
                    else k in
          mret (Some (PyStr.title (PyStr.replace k' "." " ")))
      | _ => Raise AttributeError
      end
    else mret None.

Definition append_part (parts : list string) (d : value) : result (list string) :=
  p ← fragment_part d;
  mret (match p with Some s => parts ++ [s] | None => parts end).

(** Source lines 38-41: the label from [contributedNode.type], or the
    sentinel. *)
Definition type_label (node : value) : result string :=
  cn ← dict_get node "contributedNode" (VDict []);
  ctype ← dict_get cn "type" VNone;
  if truthy ctype then
    match ctype with
    | VStr t => mret (PyStr.title (PyStr.replace (PyStr.replace t "ur-" "") "-" " "))
    | _ => Raise AttributeError
    end
  else mret "Unknown".

Definition get_label (node : value) : result string :=
  pl ← dict_get node "programLabel" VNone;
  match pl with
  | VStr s =>
      if truthy (VStr (PyStr.strip s)) then mret (PyStr.strip s) else type_label node
  | VList fragments =>
      parts ← for_each append_part fragments [];
      if truthy (VList (map VStr parts))
      then mret (PyStr.strip (PyStr.join " " parts))
      else type_label node
  | _ => type_label node
  end.

(** ** The tree flattener *)

(** [lines or []]: the list that was passed when it is not empty, a new
    list otherwise; [None] is the default argument. *)
Definition or_new (lines : option (list string)) : list string :=
  match lines with
  | Some (x :: l) => x :: l
  | _ => []
  end.

(** The caller's list after a call that received it: the callee appended to
    that very list unless it was empty, in which case the callee worked on a
    list of its own. *)
Definition after_call (passed returned : list string) : list string :=
  match passed with
  | [] => passed
  | _ => returned
  end.

(** The loop over [node.get("children", [])] draws from a list of nodes.
    Drawing from a non-empty dict or string gives strings, and the call on
    the first of them raises in [get_label] ([str] has no [get]): see
    [get_label_of_str].

    [room] is the number of nested calls the interpreter still admits
    below this one: a call made with no room left raises [RecursionError]
    before anything of the child is looked at. *)
Fixpoint _walk_pretty (room : nat) (node : value) (indent : nat)
  (lines : option (list string)) {struct node} : result (list string) :=
  let lines0 := or_new lines in
  label ← get_label node;
  let lines1 := lines0 ++ [PyStr.repeat "  " indent +:+ label] in
  match node with
  | VDict fields =>
      lookup_with "children" (Ok lines1)
        (fun children =>
           match children with
           | VList nodes =>
               for_each
                 (fun cur child =>
                    r ← match room with
                        | S room' => _walk_pretty room' child (S indent) (Some cur)
                        | O => Raise RecursionError
                        end;
                    mret (after_call cur r))
                 nodes lines1
           | VDict [] | VStr EmptyString => Ok lines1
           | VDict (_ :: _) | VStr (String _ _) =>
               match room with
               | S _ => Raise AttributeError
               | O => Raise RecursionError
               end
           | _ => Raise TypeError
           end)
        fields
  | _ => Raise AttributeError
  end.

(** A nested call of [_walk_pretty], made with [room] left. *)
Definition nested_call (room : nat) (child : value) (indent : nat)
  (lines : option (list string)) : result (list string) :=
  match room with
  | S room' => _walk_pretty room' child indent lines
  | O => Raise RecursionError
  end.

(** ** Paths and files *)

(** A path is the list of its components; two paths name the same file when
    they are equal.  The file system maps a path to a text file or to a
    directory, the empty path being the root directory.  Permissions, links
    and encodings are not modelled. *)
Abbreviation path := (list string).

Inductive entry : Type :=
| File (text : string)
| Dir.

Abbreviation filesystem := (gmap path entry).

(** An action on the file system: its outcome and the file system it
    leaves, also when it raises. *)
Definition io (A : Type) : Type := filesystem -> result A * filesystem.

Module Path.

(** [p.name] *)
Definition name (p : path) : string := List.last p EmptyString.

(** [p.stem]: the name without its last suffix; a dot that starts or ends
    the name opens no suffix. *)
Definition stem_of_name (n : string) : string :=
  match PyStr.rfind "." n with
  | Some i => if (0 <? i) && (i <? String.length n - 1) then PyStr.take i n else n
  | None => n
  end.

Definition stem (p : path) : string := stem_of_name (name p).

(** [p / file] for a file name. *)
Definition child (p : path) (file : string) : path := p ++ [file].

Definition parent (p : path) : path := List.removelast p.

Definition is_dir (fs : filesystem) (p : path) : bool :=
  match p with
  | [] => true
  | _ => match fs !! p with Some Dir => true | _ => false end
  end.

(** [p.read_text(encoding="utf-8")] *)
Definition read_text (p : path) : io string := fun fs =>
  match fs !! p with
  | Some (File text) => (Ok text, fs)
  | _ => (Raise OSError, fs)
  end.

(** Whether UTF-8 encodes the text: it does unless the text holds a lone
    surrogate. *)
Definition encodable (text : string) : bool :=
  forallb (fun c => PyStr.code c <? 128) (list_ascii_of_string text).

(** [p.write_text(text, encoding="utf-8")]: the directory has to exist and
    [p] must not be one.  The file is opened first, which creates it or
    empties it, and the text is encoded then: a text that cannot be encoded
    leaves the file empty. *)
Definition write_text (p : path) (text : string) : io unit := fun fs =>
  if is_dir fs (parent p) && negb (is_dir fs p)
  then if encodable text
       then (Ok tt, <[p := File text]> fs)
       else (Raise UnicodeEncodeError, <[p := File EmptyString]> fs)
  else (Raise OSError, fs).

(** [p.suffix]: the last suffix of the name, with its dot, or nothing. *)
Definition suffix_of_name (n : string) : string :=
  match PyStr.rfind "." n with
  | Some i => if (0 <? i) && (i <? String.length n - 1) then PyStr.drop i n else EmptyString
  | None => EmptyString
  end.

Definition suffix (p : path) : string := suffix_of_name (name p).

End Path.

(** ** The script emitter *)

Definition hidden_variable_line : string := "  global _hidden_verificationVariable = 0".

(** Source lines 52-55: the lines of the script file. *)
Definition script_lines (data : value) (stem : string) : result (list string) :=
  application ← dict_get data "application" (VDict []);
  info ← dict_get application "applicationInfo" (VDict []);
  func_name ← dict_get info "name" (VStr stem);
  application' ← dict_get data "application" (VDict []);
  holder ← dict_get application' "urscript" (VDict []);
  urscript ← dict_get holder "script" (VStr "");
  let lines := ["def " +:+ py_str func_name +:+ "():"; hidden_variable_line] in
  match urscript with
  | VStr s => mret (lines ++ map (fun ln => "  " +:+ ln) (PyStr.splitlines s))
  | _ => Raise AttributeError
  end.

Definition urpx_to_script (data : value) (stem : string) (dst_dir : path) : io path :=
  fun fs =>
    match script_lines data stem with
    | Ok lines =>
        let out := Path.child dst_dir (stem +:+ "_converted.script") in
        match Path.write_text out (PyStr.join LF lines) fs with
        | (Ok _, fs') => (Ok out, fs')
        | (Raise e, fs') => (Raise e, fs')
        end
    | Raise e => (Raise e, fs)
    end.

(** ** The program reshaper *)

(** Source line 64: the leaf appended for one variable declaration. *)
Definition variable_leaf (var : value) : result value :=
  name ← dict_get var "name" (VStr "<anon>");
  mret (VDict [("programLabel", name)]).

Definition append_leaf (leaves : list value) (var : value) : result (list value) :=
  leaf ← variable_leaf var;
  mret (leaves ++ [leaf]).

(** Source lines 68-71: [next] over the generator, with its default. *)
Fixpoint first_functions (prog_children : list value) : result value :=
  match prog_children with
  | [] => Ok (VList [])
  | n :: rest =>
      cn ← dict_get n "contributedNode" (VDict []);
      t ← dict_get cn "type" VNone;
      if eq_str t "ur-functions"
      then dict_get n "children" (VList [])
      else first_functions rest
  end.

(** [v[0]] *)
Definition first_item (v : value) : result value :=
  match v with
  | VList (x :: _) => Ok x
  | VList [] => Raise IndexError
  | VStr (String c _) => Ok (VStr (String c EmptyString))
  | VStr EmptyString => Raise IndexError
  | VDict _ => Raise KeyError
  | _ => Raise TypeError
  end.

(** Source lines 61-74: the tree handed to the flattener. *)
Definition outline_tree (data : value) : result value :=
  program ← dict_get data "program" (VDict []);
  declarations ← dict_get program "variableDeclarations" (VList []);
  vars ← py_iter declarations;
  leaves ← for_each append_leaf vars [];
  let vars_node := VDict [("name", VStr "Variables Setup"); ("children", VList leaves)] in
  program' ← dict_get data "program" (VDict []);
  content ← dict_get program' "programContent" (VDict []);
  prog_children ← dict_get content "children" (VList []);
  candidates ← py_iter prog_children;
  func_nodes ← first_functions candidates;
  main_func_children ←
    (if truthy func_nodes
     then first ← first_item func_nodes; dict_get first "children" (VList [])
     else mret (VList []));
  mret (VDict [("name", VStr "Program");
               ("children",
                VList [vars_node;
                       VDict [("name", VStr "Robot Program");
                              ("children", main_func_children)]])]).

(** Source lines 61-77: the lines of the outline file. *)
Definition outline_lines (room : nat) (data : value) : result (list string) :=
  root ← outline_tree data;
  _walk_pretty room root 0 None.

Definition urpx_to_txt (room : nat) (data : value) (stem : string) (dst_dir : path)
  : io path :=
  fun fs =>
    match outline_lines room data with
    | Ok lines =>
        let out := Path.child dst_dir (stem +:+ "_converted.txt") in
        match Path.write_text out (PyStr.join LF lines) fs with
        | (Ok _, fs') => (Ok out, fs')
        | (Raise e, fs') => (Raise e, fs')
        end
    | Raise e => (Raise e, fs)
    end.

(** Both serialisers end the same way: the lines are joined and written to
    a file of the destination directory. *)
Definition write_lines (lines : result (list string)) (dst_dir : path) (file : string)
  : io path := fun fs =>
  match lines with
  | Ok ls =>
      let out := Path.child dst_dir file in
      match Path.write_text out (PyStr.join LF ls) fs with
      | (Ok _, fs') => (Ok out, fs')
      | (Raise e, fs') => (Raise e, fs')
      end
  | Raise e => (Raise e, fs)
  end.

(** ** The conversion job *)

Module Job.

Record t : Type := make { src : path; dst : path; mode : string }.

Section Run.
(** [json.loads], which is not part of the program: [None] when the
    text is not valid JSON. *)
Variable json_loads : string -> option value.

(** The room for the recursion of [_walk_pretty] where [run] is called. *)
Variable room : nat.

Definition run (job : t) : io path := fun fs =>
  match Path.read_text (src job) fs with
  | (Ok text, fs1) =>
      match json_loads text with
      | Some data =>
          if String.eqb (mode job) "script"
          then urpx_to_script data (Path.stem (src job)) (dst job) fs1
          else urpx_to_txt room data (Path.stem (src job)) (dst job) fs1
      | None => (Raise JSONDecodeError, fs1)
      end
  | (Raise e, fs1) => (Raise e, fs1)
  end.
End Run.

End Job.

(** ** The application window

    Of the window only the state that the conversion uses is modelled: the
    list of chosen files with the rows that show them, the output directory
    and the mode.  Paths compare as on POSIX. *)

Module App.

(** A row of the list widget; its identifier is [str(path)], which stands
    for the path. *)
Record row : Type := make_row { iid : path; text : string; tag : string }.

Record state : Type := make_state {
  files : list path;
  rows : list row;
  output_dir : option path;
  mode : string
}.

(** A dialog box shown to the user.  An error line is kept as the name of
    the file and the exception; the wording of the exception is not
    modelled. *)
Inductive dialog : Type :=
| ShowWarning (title message : string)
| ShowError (title : string) (entries : list (string * exn))
| ShowInfo (title message : string).

(** [self.list.insert("", END, iid=..., ...)]: the row goes last; the
    widget refuses an identifier it has already ([None] for its error). *)
Definition tree_insert (rs : list row) (r : row) : option (list row) :=
  if existsb (fun r' => bool_decide (iid r' = iid r)) rs
  then None
  else Some (rs ++ [r]).

(** Source lines 189-194; [win32] says whether [sys.platform] is [win32]. *)
Definition _parse_paths (win32 : bool) (data : string) : list string :=
  if win32
  then
    let data := PyStr.strip_chars data "{}" in
    map (fun p => PyStr.strip_chars p "{}") (PyStr.split data "} {")
  else PyStr.split_blank data.

Definition is_urpx (p : path) : bool :=
  String.eqb (PyStr.lower (Path.suffix p)) ".urpx".

Section Window.
(** The constructor [Path(p)] of a path from its text. *)
Variable to_path : string -> path.

(** One turn of the loop of [_add_files] (source lines 182-187).  When the
    widget refuses the row the exception leaves the method: [None]. *)
Definition add_file (st : state) (p : string) : option state :=
  let path := to_path p in
  if negb (is_urpx path) || bool_decide (path ∈ files st)
  then Some st
  else
    let files' := files st ++ [path] in
    let tag := if negb (Nat.eqb (length files' mod 2) 0) then "odd" else "even" in
    match tree_insert (rows st) (make_row path (Path.name path) tag) with
    | Some rows' => Some (make_state files' rows' (output_dir st) (mode st))
    | None => None
    end.

Fixpoint _add_files (st : state) (paths : list string) : option state :=
  match paths with
  | [] => Some st
  | p :: rest =>
      match add_file st p with
      | Some st' => _add_files st' rest
      | None => None
      end
  end.

(** [_on_drop] (source lines 142-143). *)
Definition _on_drop (win32 : bool) (st : state) (data : string) : option state :=
  _add_files st (_parse_paths win32 data).

(** [_choose_output] (source lines 149-152), for the folder the dialog
    returned: an empty answer changes nothing. *)
Definition _choose_output (st : state) (folder : string) : state :=
  if truthy (VStr folder)
  then make_state (files st) (rows st) (Some (to_path folder)) (mode st)
  else st.
End Window.

Section Convert.
Variable json_loads : string -> option value.
Variable room : nat.

(** The lists kept by the loop of [_convert], and the value of the
    progress bar. *)
Record tally : Type := make_tally {
  errors : list (string * exn);
  done : list string;
  value : nat
}.

(** One turn of the loop (source lines 166-171). *)
Definition convert_one (out : path) (mode : string) (t : tally) (fp : path)
  : filesystem -> tally * filesystem := fun fs =>
  match Job.run json_loads room (Job.make fp out mode) fs with
  | (Ok res, fs') =>
      (make_tally (errors t) (done t ++ [Path.name res]) (S (value t)), fs')
  | (Raise exc, fs') =>
      (make_tally (errors t ++ [(Path.name fp, exc)]) (done t) (S (value t)), fs')
  end.

Fixpoint convert_loop (out : path) (mode : string) (fps : list path) (t : tally)
  : filesystem -> tally * filesystem := fun fs =>
  match fps with
  | [] => (t, fs)
  | fp :: rest =>
      let '(t', fs') := convert_one out mode t fp fs in
      convert_loop out mode rest t' fs'
  end.

(** What [_convert] shows at the end, and where the progress bar stands
    (its maximum and its value) when the loop has run. *)
Record report : Type := make_report {
  shown : dialog;
  progress : option (nat * nat)
}.

(** Source lines 155-177. *)
Definition _convert (st : state) : filesystem -> report * filesystem := fun fs =>
  match files st with
  | [] => (make_report (ShowWarning "No input" "Add .urpx files first") None, fs)
  | _ :: _ =>
      match output_dir st with
      | None => (make_report (ShowWarning "No output" "Choose output directory") None, fs)
      | Some out =>
          let '(t, fs') :=
            convert_loop out (mode st) (files st) (make_tally [] [] 0) fs in
          (make_report
             (match errors t with
              | [] => ShowInfo "Done" ("Converted:" +:+ LF +:+ PyStr.join LF (done t))
              | _ :: _ => ShowError "Errors" (errors t)
              end)
             (Some (length (files st), value t)),
           fs')
      end
  end.
End Convert.

(** The window as it opens (source lines 104-106). *)
Definition initial : state := make_state [] [] None "script".

End App.

(** ** The data model of the specification *)

(** *** Sparse but valid documents

    Every field is optional; a field that is present has the type the data
    model gives it.  The checks read every item of a dict. *)

Definition is_str (v : value) : bool :=
  match v with VStr _ => true | _ => false end.

Definition is_dict (v : value) : bool :=
  match v with VDict _ => true | _ => false end.

Definition dict_all (check : string -> value -> bool) (v : value) : bool :=
  match v with
  | VDict fields => forallb (fun kv => check (fst kv) (snd kv)) fields
  | _ => false
  end.

Definition list_all (check : value -> bool) (v : value) : bool :=
  match v with
  | VList items => forallb check items
  | _ => false
  end.

(** [field key check]: the check of a dict whose field [key], when present,
    has to pass [check]. *)
Definition field (key : string) (check : value -> bool) (k : string) (v : value) : bool :=
  if String.eqb k key then check v else true.

(** A label fragment: a mapping whose [translationKey] is a string. *)
Definition valid_fragment (d : value) : bool :=
  dict_all (field "translationKey" is_str) d.

Definition valid_contributed (c : value) : bool :=
  dict_all (field "type" is_str) c.

(** A program node: a mapping whose [programLabel] is a string or a list of
    fragments, whose [contributedNode] is a mapping with a string [type],
    and whose [children] are a list of program nodes. *)
Fixpoint valid_node (n : value) : bool :=
  match n with
  | VDict fields =>
      forallb
        (fun kv =>
           if String.eqb (fst kv) "programLabel"
           then is_str (snd kv) || list_all valid_fragment (snd kv)
           else if String.eqb (fst kv) "contributedNode"
           then valid_contributed (snd kv)
           else if String.eqb (fst kv) "children"
           then match snd kv with
                | VList items => forallb valid_node items
                | _ => false
                end
           else true)
        fields
  | _ => false
  end.

Definition valid_application (a : value) : bool :=
  dict_all
    (fun k v =>
       field "applicationInfo" is_dict k v &&
       field "urscript" (dict_all (field "script" is_str)) k v)
    a.

Definition valid_program (p : value) : bool :=
  dict_all
    (fun k v =>
       field "variableDeclarations" (list_all (dict_all (field "name" is_str))) k v &&
       field "programContent" (dict_all (field "children" (list_all valid_node))) k v)
    p.

Definition valid_document (data : value) : bool :=
  dict_all
    (fun k v => field "application" valid_application k v &&
                field "program" valid_program k v)
    data.

(** *** Optional fields *)

(** The value at the end of a chain of fields, [None] when a field of the
    chain is absent. *)
Fixpoint field_at (keys : list string) (v : value) : option value :=
  match keys with
  | [] => Some v
  | k :: keys' =>
      match v with
      | VDict fields =>
          match assoc k fields with
          | Some v' => field_at keys' v'
          | None => None
          end
      | _ => None
      end
  end.

(** The items of a sequence field, none when it is absent. *)
Definition items_at (keys : list string) (v : value) : list value :=
  match field_at keys v with
  | Some (VList items) => items
  | _ => []
  end.

(** *** The outline tree and its flattening, as the specification words them *)

#[warnings="-register-all"]
Inductive outline : Type :=
| Node (label : string) (children : list outline).

Section OutlineInd.
Variable P : outline -> Prop.
Hypothesis HNode : forall label children, Forall P children -> P (Node label children).

Fixpoint outline_nested_ind (t : outline) : P t :=
  match t with
  | Node label children =>
      HNode label children
        ((fix all (l : list outline) : Forall P l :=
            match l with
            | [] => @List.Forall_nil _ P
            | x :: l' => @List.Forall_cons _ P x l' (outline_nested_ind x) (all l')
            end) children)
  end.
End OutlineInd.

(** One line per node: the node first, then its children in order, each one
    level deeper. *)
Fixpoint flatten (depth : nat) (t : outline) : list string :=
  match t with
  | Node label children =>
      (PyStr.repeat "  " depth +:+ label)
        :: flat_map (flatten (S depth)) children
  end.

(** The number of levels of a tree: one for a leaf. *)
Fixpoint height (t : outline) : nat :=
  match t with
  | Node _ children => S (list_max (map height children))
  end.

(** The number of levels of a node, down its [children] lists. *)
Fixpoint node_height (node : value) : nat :=
  match node with
  | VDict fields =>
      S (lookup_with "children" 0
           (fun children =>
              match children with
              | VList nodes => list_max (map node_height nodes)
              | _ => 0
              end)
           fields)
  | _ => 1
  end.

Fixpoint size (t : outline) : nat :=
  match t with
  | Node _ children => S (list_sum (map size children))
  end.

(** The depths of the lines, in the order of the lines. *)
Fixpoint depths (depth : nat) (t : outline) : list nat :=
  match t with
  | Node _ children => depth :: flat_map (depths (S depth)) children
  end.

(** The tree a node stands for: its resolved label and, from its
    [children] list, the trees of its children. *)
Fixpoint tree_of (node : value) : option outline :=
  match get_label node, node with
  | Ok label, VDict fields =>
      lookup_with "children" (Some (Node label []))
        (fun children =>
           match children with
           | VList nodes => option_map (Node label) (mapM tree_of nodes)
           | _ => None
           end)
        fields
  | _, _ => None
  end.

(** *** The reshaper, as the specification words it *)

Definition declared_variables (data : value) : list value :=
  items_at ["program"; "variableDeclarations"] data.

Definition leaf_of (var : value) : value :=
  VDict [("programLabel",
          match field_at ["name"] var with Some name => name | None => VStr "<anon>" end)].

Definition is_functions_container (n : value) : bool :=
  match field_at ["contributedNode"; "type"] n with
  | Some t => eq_str t "ur-functions"
  | None => false
  end.

Definition main_program_body (data : value) : list value :=
  match List.find is_functions_container
          (items_at ["program"; "programContent"; "children"] data) with
  | Some container =>
      match items_at ["children"] container with
      | first :: _ => items_at ["children"] first
      | [] => []
      end
  | None => []
  end.

Definition section (title : string) (children : list value) : value :=
  VDict [("name", VStr title); ("children", VList children)].

(** The outline tree of a document. *)
Definition outline_of (data : value) : value :=
  section "Program"
    [section "Variables Setup" (map leaf_of (declared_variables data));
     section "Robot Program" (main_program_body data)].

(** *** The script, as the specification words it *)

Definition function_name (data : value) (fallback : string) : string :=
  match field_at ["application"; "applicationInfo"; "name"] data with
  | Some name => py_str name
  | None => fallback
  end.

Definition script_body (data : value) : string :=
  match field_at ["application"; "urscript"; "script"] data with
  | Some (VStr s) => s
  | _ => EmptyString
  end.

Definition emitted_script (name script : string) : string :=
  PyStr.join LF
    (("def " +:+ name +:+ "():")
       :: hidden_variable_line
       :: map (fun ln => "  " +:+ ln) (PyStr.splitlines script)).

(** *** The label from a type, as the specification words it: the prefix
    is removed only at the start. *)
Definition type_label_spec (t : string) : string :=
  let t' := if PyStr.startswith t "ur-" then PyStr.drop 3 t else t in
  PyStr.title (PyStr.replace t' "-" " ").

(** ** Sample inputs *)

Module Sample.

Definition labelled (label : string) (children : list value) : value :=
  VDict [("programLabel", VStr label); ("children", VList children)].

(** A root with two children, the first of which has one child. *)
Definition family : value :=
  labelled "root" [labelled "first" [labelled "grandchild" []];
                   labelled "second" []].

Definition family_tree : outline :=
  Node "root" [Node "first" [Node "grandchild" []]; Node "second" []].

(** A chain: a node with one child, [n] times over, down to a leaf. *)
Fixpoint chain (n : nat) : value :=
  match n with
  | S k => VDict [("children", VList [chain k])]
  | O => VDict []
  end.

Fixpoint chain_tree (n : nat) : outline :=
  match n with
  | S k => Node "Unknown" [chain_tree k]
  | O => Node "Unknown" []
  end.

(** A valid document whose main program is a chain. *)
Definition deep_document (n : nat) : value :=
  VDict [("program",
          VDict [("programContent",
                  VDict [("children",
                          VList [VDict [("contributedNode",
                                         VDict [("type", VStr "ur-functions")]);
                                        ("children",
                                         VList [VDict [("children",
                                                        VList [chain n])]])]])])])].

Definition typed (type : string) : value :=
  VDict [("contributedNode", VDict [("type", VStr type)])].

(** Two declared variables and no functions container. *)
Definition two_variables : value :=
  VDict [("program",
          VDict [("variableDeclarations",
                  VList [VDict [("name", VStr "speed")];
                         VDict [("name", VStr "force")]]);
                 ("programContent",
                  VDict [("children", VList [typed "ur-move"])])])].

(** A named program with a script of two lines. *)
Definition pick : value :=
  VDict [("application",
          VDict [("applicationInfo", VDict [("name", VStr "Pick")]);
                 ("urscript",
                  VDict [("script", VStr ("move_j(p1)" +:+ LF +:+ "move_j(p2)"))])])].

(** A document with fields missing at several levels. *)
Definition sparse : value :=
  VDict [("application", VDict [("urscript", VDict [])]);
         ("program",
          VDict [("variableDeclarations", VList [VDict []]);
                 ("programContent",
                  VDict [("children",
                          VList [VDict [("contributedNode",
                                         VDict [("type", VStr "ur-functions")]);
                                        ("children", VList [VDict []])]])])])].

(** A label list whose only fragment has an empty [value], on a node
    that has a type. *)
Definition blank_fragment : value :=
  VDict [("programLabel", VList [VDict [("value", VStr "")]]);
         ("contributedNode", VDict [("type", VStr "ur-move")])].

(** The same node with an empty label list. *)
Definition no_fragment : value :=
  VDict [("programLabel", VList []);
         ("contributedNode", VDict [("type", VStr "ur-move")])].

(** A node whose label has blanks around it, and a type besides. *)
Definition padded : list (string * value) :=
  [("programLabel", VStr "  Move to P1  ");
   ("contributedNode", VDict [("type", VStr "ur-move")])].

(** Two fragments with a [value]; the first has a [translationKey] too. *)
Definition spoken : list value :=
  [VDict [("value", VStr "Wait"); ("translationKey", VStr "program-node-label.wait")];
   VDict [("value", VInt 5)]].

(** A tree with a number two levels down. *)
Definition stray : value :=
  labelled "root" [labelled "first" []; labelled "second" [VInt 7]].

(** A document with a functions container, whose first child holds the
    main program; a second container and a second child are there too. *)
Definition body_of (label : string) : value :=
  VDict [("children", VList [labelled label []])].

Definition two_containers : value :=
  VDict [("program",
          VDict [("variableDeclarations",
                  VList [VDict [("name", VStr " speed ")]; VDict [];
                         VDict [("name", VStr "")]]);
                 ("programContent",
                  VDict [("children",
                          VList [typed "ur-move";
                                 VDict [("contributedNode",
                                         VDict [("type", VStr "ur-functions")]);
                                        ("children",
                                         VList [body_of "main"; body_of "other"])];
                                 VDict [("contributedNode",
                                         VDict [("type", VStr "ur-functions")]);
                                        ("children", VList [body_of "late"])]])])])].

(** A script that is null. *)
Definition null_script : value :=
  VDict [("application", VDict [("urscript", VDict [("script", VNone)])])].

(** A stand-in for [Path]: the components between slashes. *)
Definition to_path (p : string) : path := PyStr.split p "/".

Definition dropped : list string :=
  ["in/cell.urpx"; "in/notes.txt"; "in/CELL2.URPX"; "in/cell.urpx"].

(** A stand-in for the parser that knows the empty list too. *)
Definition loads_more (text : string) : option value :=
  if String.eqb text "{}" then Some (VDict [])
  else if String.eqb text "[]" then Some (VList [])
  else None.

Definition listing : path := ["in"; "list.urpx"].

(** A stand-in for the parser: it knows the empty object only. *)
Definition loads (text : string) : option value :=
  if String.eqb text "{}" then Some (VDict []) else None.

Definition source : path := ["in"; "cell.urpx"].
Definition broken : path := ["in"; "broken.urpx"].
Definition out_dir : path := ["out"].

Definition disk : filesystem :=
  <[source := File "{}"]>
    (<[broken := File "{"]>
       (<[out_dir := Dir]> (<[["in"] := Dir]> ∅))).

Definition disk_with_list : filesystem := <[listing := File "[]"]> disk.







(** A second source with the stem of the first, elsewhere. *)
Definition twin : path := ["old"; "cell.json"].

Definition disk_with_twin : filesystem := <[twin := File "{}"]> disk.

(** A window with two files, the second of which cannot be parsed. *)
Definition window : App.state :=
  App.make_state [source; broken]
    [App.make_row source "cell.urpx" "odd"; App.make_row broken "broken.urpx" "even"]
    (Some out_dir) "txt".

(** A window with the first file only. *)
Definition window_one : App.state :=
  App.make_state [source] [App.make_row source "cell.urpx" "odd"] (Some out_dir) "txt".

End Sample.

(** ** Notions used by the further properties *)

(** A fragment in which neither key is found: the loop passes it by. *)
Definition silent_fragment (d : value) : bool :=
  match py_contains "value" d, py_contains "translationKey" d with
  | Ok false, Ok false => true
  | _, _ => false
  end.

(** The text of a fragment that has a [value]. *)
Definition value_text (d : value) : option string :=
  match d with
  | VDict fields => option_map py_str (assoc "value" fields)
  | _ => None
  end.

(** A line moved [k] levels to the right. *)
Definition indent_by (k : nat) (line : string) : string :=
  PyStr.repeat "  " k +:+ line.

Definition last_char (s : string) : option ascii :=
  String.get (String.length s - 1) s.

(** An object a [for] loop cannot draw from. *)
Definition not_iterable (v : value) : bool :=
  match v with
  | VNone | VBool _ | VInt _ | VFloat _ _ => true
  | _ => false
  end.

(** A tree with a stray item: somewhere down the [children] lists there is
    an item that is not a mapping. *)
Fixpoint has_stray (node : value) : bool :=
  match node with
  | VDict fields =>
      lookup_with "children" false
        (fun children =>
           match children with
           | VList nodes => existsb has_stray nodes
           | _ => false
           end)
        fields
  | _ => true
  end.

(** The line of a declared variable: its name without the blanks around
    it; the sentinel of the reshaper when it has no name, the sentinel of
    the resolver when the name is blank or no text. *)
Definition variable_label (var : value) : string :=
  match field_at ["name"] var with
  | Some (VStr s) =>
      if String.eqb (PyStr.strip s) "" then "Unknown" else PyStr.strip s
  | Some _ => "Unknown"
  | None => "<anon>"
  end.

(** The file name of the output of a job. *)
Definition output_name (stem mode : string) : string :=
  stem +:+ (if String.eqb mode "script" then "_converted.script" else "_converted.txt").

(** The tag of the row at position [i], counted from 0. *)
Definition stripe (i : nat) : string := if Nat.even i then "odd" else "even".

(** The window shows what it holds: one row per file, in order, with the
    name of the file and the tag of its position; no file twice; every
    file with the suffix [.urpx], in any case. *)
Definition consistent (st : App.state) : bool :=
  bool_decide (map App.iid (App.rows st) = App.files st) &&
  bool_decide (map App.text (App.rows st) = map Path.name (App.files st)) &&
  bool_decide (map App.tag (App.rows st) = map stripe (seq 0 (length (App.rows st)))) &&
  bool_decide (NoDup (App.files st)) &&
  forallb App.is_urpx (App.files st).

(** A word: not empty and without a blank. *)
Definition plain_word (w : string) : bool :=
  negb (String.eqb w "") &&
  forallb (fun c => negb (PyStr.is_space c)) (list_ascii_of_string w).

(** A path as the drop event of Windows wraps it in braces: not empty and
    without a brace of its own (it may hold blanks). *)
Definition braceless (w : string) : bool :=
  negb (String.eqb w "") &&
  forallb (fun c => negb (PyStr.has_char c "{}")) (list_ascii_of_string w).

(** * Properties *)

(** ** Lookups *)

Lemma bind_ok {A B} (a : A) (f : A -> result B) : (Ok a ≫= f) = f a.
Proof. reflexivity. Qed.

Lemma bind_raise {A B} (e : exn) (f : A -> result B) : (Raise e ≫= f) = Raise e.
Proof. reflexivity. Qed.

Lemma lookup_with_assoc {R : Type} key (absent : R) present fields :
  lookup_with key absent present fields =
  match assoc key fields with
  | Some v => present v
  | None => absent
  end.
Proof.
  unfold assoc.
  induction fields as [|[k v] rest IH]; simpl; [reflexivity|].
  destruct (String.eqb k key); [reflexivity | exact IH].
Qed.

Lemma dict_get_fields fields key default :
  dict_get (VDict fields) key default =
  Ok (match assoc key fields with Some v => v | None => default end).
Proof. simpl. now rewrite lookup_with_assoc. Qed.

Lemma assoc_In key fields v : assoc key fields = Some v -> In (key, v) fields.
Proof.
  unfold assoc.
  induction fields as [|[k w] rest IH]; simpl; [discriminate|].
  destruct (String.eqb k key) eqn:E.
  - intros [= ->]. apply String.eqb_eq in E as ->. now left.
  - intros H. right. now apply IH.
Qed.

Lemma dict_all_assoc check fields key v :
  dict_all check (VDict fields) = true ->
  assoc key fields = Some v ->
  check key v = true.
Proof.
  simpl. rewrite forallb_forall. intros Hall Hk.
  exact (Hall (key, v) (assoc_In _ _ _ Hk)).
Qed.

Lemma field_same key check v : field key check key v = check v.
Proof. unfold field. now rewrite String.eqb_refl. Qed.

Lemma is_str_inv v : is_str v = true -> exists s, v = VStr s.
Proof. destruct v; try discriminate. eauto. Qed.

Lemma is_dict_inv v : is_dict v = true -> exists fields, v = VDict fields.
Proof. destruct v; try discriminate. eauto. Qed.

Lemma dict_all_inv check v :
  dict_all check v = true -> exists fields, v = VDict fields.
Proof. destruct v; try discriminate. eauto. Qed.

Lemma list_all_inv check v :
  list_all check v = true ->
  exists items, v = VList items /\ forallb check items = true.
Proof. destruct v; try discriminate. eauto. Qed.

(** ** The loop combinator *)

Lemma for_each_app {S : Type} (body : S -> value -> result S) xs ys st :
  for_each body (xs ++ ys) st = (for_each body xs st ≫= for_each body ys).
Proof.
  revert st. induction xs as [|x xs IH]; intros st; simpl; [reflexivity|].
  destruct (body st x); simpl; [apply IH | reflexivity].
Qed.

(** ** The label resolver *)

(** A string has no [get]: the resolver raises on it. *)
Lemma get_label_of_str s : get_label (VStr s) = Raise AttributeError.
Proof. reflexivity. Qed.

Lemma _walk_pretty_of_str room s indent lines :
  _walk_pretty room (VStr s) indent lines = Raise AttributeError.
Proof. reflexivity. Qed.

(** The flattener in the shape of the source: the label is appended, then
    the loop draws the children from [node.get("children", [])] and makes
    a nested call on each. *)
Lemma _walk_pretty_eq room node indent lines :
  _walk_pretty room node indent lines =
  (label ← get_label node;
   children ← dict_get node "children" (VList []);
   nodes ← py_iter children;
   for_each
     (fun cur child =>
        r ← nested_call room child (S indent) (Some cur);
        mret (after_call cur r))
     nodes (or_new lines ++ [PyStr.repeat "  " indent +:+ label])).
Proof.
  destruct node; try reflexivity.
  cbn [_walk_pretty].
  destruct (get_label (VDict fields)) as [label|e]; [|reflexivity].
  rewrite !bind_ok, dict_get_fields, bind_ok, lookup_with_assoc.
  destruct (assoc "children" fields) as [children|]; [|reflexivity].
  destruct children as [| | | | s | items | kvs]; try reflexivity.
  - destruct s; [reflexivity|]. destruct room; reflexivity.
  - destruct kvs as [|[k v] kvs]; [reflexivity|]. destruct room; reflexivity.
Qed.

(** Induction on nodes: for a dict, the property may be assumed of every
    item of every list among its fields. *)
Lemma value_node_ind (Q : value -> Prop) :
  (forall v, is_dict v = false -> Q v) ->
  (forall fields,
      (forall k nodes, In (k, VList nodes) fields -> Forall Q nodes) ->
      Q (VDict fields)) ->
  forall v, Q v.
Proof.
  intros Hother Hdict v.
  enough (H : Q v /\ forall items, v = VList items -> Forall Q items) by apply H.
  induction v using value_nested_ind;
    try (split; [now apply Hother | discriminate]).
  - split; [now apply Hother|].
    intros items' [= <-]. eapply Forall_impl; [eassumption|].
    now intros x [Hx _].
  - split; [|discriminate].
    apply Hdict. intros k nodes Hin.
    rewrite List.Forall_forall in H. now apply (H _ Hin).
Qed.

Lemma or_new_some lines : or_new (Some lines) = lines.
Proof. now destruct lines. Qed.

Lemma after_call_nonempty cur r : cur <> [] -> after_call cur r = r.
Proof. now destruct cur. Qed.

(** ** The tree flattener *)

Lemma tree_of_eq node :
  tree_of node =
  match get_label node, node with
  | Ok label, VDict fields =>
      match assoc "children" fields with
      | None => Some (Node label [])
      | Some (VList nodes) => option_map (Node label) (mapM tree_of nodes)
      | Some _ => None
      end
  | _, _ => None
  end.
Proof.
  destruct node; try reflexivity.
  cbn [tree_of]. destruct (get_label (VDict fields)); [|reflexivity].
  now rewrite lookup_with_assoc.
Qed.

(** The loop over the children appends their flattenings in order.  The
    list handed down is never empty, so every child appends to the very
    list of its parent. *)
Lemma walk_children room indent nodes kids :
  Forall2 (fun child kid =>
             forall room' indent' lines,
               height kid <= S room' ->
               _walk_pretty room' child indent' lines
               = Ok (or_new lines ++ flatten indent' kid))
          nodes kids ->
  list_max (map height kids) <= room ->
  forall cur, cur <> [] ->
  for_each
    (fun cur child =>
       r ← nested_call room child (S indent) (Some cur);
       mret (after_call cur r))
    nodes cur
  = Ok (cur ++ flat_map (flatten (S indent)) kids).
Proof.
  induction 1 as [|child kid nodes kids Hchild _ IH]; intros Hroom cur Hcur; simpl.
  - now rewrite app_nil_r.
  - change (Nat.max (height kid) (list_max (map height kids)) <= room) in Hroom.
    assert (Hkid : height kid <= room) by lia.
    assert (Hkids : list_max (map height kids) <= room) by lia.
    destruct room as [|room']; [destruct kid; cbn in Hkid; lia|].
    cbn [nested_call]. rewrite (Hchild room' (S indent) (Some cur) Hkid), or_new_some.
    simpl. rewrite after_call_nonempty by assumption.
    rewrite (IH Hkids) by (destruct cur; [congruence | discriminate]).
    now rewrite <- app_assoc.
Qed.

Lemma _walk_pretty_flatten node :
  forall t room indent lines,
    tree_of node = Some t ->
    height t <= S room ->
    _walk_pretty room node indent lines = Ok (or_new lines ++ flatten indent t).
Proof.
  induction node as [v Hv | fields IH] using value_node_ind;
    intros t room indent lines Ht Hroom.
  - rewrite tree_of_eq in Ht. destruct v; try discriminate;
      destruct (get_label _); discriminate.
  - rewrite tree_of_eq in Ht. rewrite _walk_pretty_eq.
    destruct (get_label (VDict fields)) as [label|e]; [|discriminate].
    rewrite bind_ok, dict_get_fields, bind_ok.
    destruct (assoc "children" fields) as [children|] eqn:Hc.
    + destruct children as [| | | | | nodes |]; try discriminate.
      destruct (mapM tree_of nodes) as [kids|] eqn:Hkids; [|discriminate].
      injection Ht as <-. simpl py_iter. rewrite bind_ok.
      apply mapM_Some in Hkids. cbn [height] in Hroom.
      rewrite (walk_children room indent nodes kids).
      * simpl. now rewrite <- app_assoc.
      * specialize (IH _ _ (assoc_In _ _ _ Hc)).
        clear -IH Hkids. induction Hkids as [|child kid nodes kids Hk _ IHk]; [constructor|].
        inversion IH; subst. constructor; [|now apply IHk].
        intros. now apply H1.
      * lia.
      * now destruct (or_new lines).
    + injection Ht as <-. reflexivity.
Qed.

(** The tree of a node has as many levels as the node. *)
Lemma tree_height node :
  forall t, tree_of node = Some t -> height t = node_height node.
Proof.
  induction node as [v Hv | fields IH] using value_node_ind; intros t Ht.
  - rewrite tree_of_eq in Ht. destruct v; try discriminate;
      destruct (get_label _); discriminate.
  - rewrite tree_of_eq in Ht. cbn [node_height]. rewrite lookup_with_assoc.
    destruct (get_label (VDict fields)) as [label|e]; [|discriminate].
    destruct (assoc "children" fields) as [children|] eqn:Hc.
    + destruct children as [| | | | | nodes |]; try discriminate.
      destruct (mapM tree_of nodes) as [kids|] eqn:Hkids; [|discriminate].
      injection Ht as <-. cbn [height]. f_equal. f_equal.
      apply mapM_Some in Hkids.
      specialize (IH _ _ (assoc_In _ _ _ Hc)).
      clear -IH Hkids. induction Hkids as [|child kid nodes kids Hk _ IHk]; [reflexivity|].
      inversion IH; subst. cbn [map]. f_equal; [now apply H1 | now apply IHk].
    + now injection Ht as <-.
Qed.

(** The loop over children of which one is too deep for the room left:
    those before it are flattened, the call on it raises. *)
Lemma walk_children_deep room indent nodes kids :
  Forall2 (fun child kid =>
             tree_of child = Some kid /\
             forall room' indent' lines,
               S room' < height kid ->
               _walk_pretty room' child indent' lines = Raise RecursionError)
          nodes kids ->
  room < list_max (map height kids) ->
  forall cur, cur <> [] ->
  for_each
    (fun cur child =>
       r ← nested_call room child (S indent) (Some cur);
       mret (after_call cur r))
    nodes cur
  = Raise RecursionError.
Proof.
  induction 1 as [|child kid nodes kids [Hk Hdeep] _ IH]; intros Hroom cur Hcur; simpl.
  - cbn in Hroom. lia.
  - change (room < Nat.max (height kid) (list_max (map height kids))) in Hroom.
    destruct room as [|room']; [reflexivity|].
    cbn [nested_call].
    destruct (le_lt_dec (height kid) (S room')) as [Hle|Hlt].
    + rewrite (_walk_pretty_flatten child kid room' (S indent) (Some cur) Hk Hle).
      rewrite or_new_some. simpl. rewrite after_call_nonempty by assumption.
      apply IH; [lia|]. destruct cur; [congruence | discriminate].
    + now rewrite (Hdeep room' (S indent) (Some cur) Hlt).
Qed.

(** A tree with more levels than the room left admits makes the flattener
    raise. *)
Lemma _walk_pretty_deep node :
  forall t room indent lines,
    tree_of node = Some t ->
    S room < height t ->
    _walk_pretty room node indent lines = Raise RecursionError.
Proof.
  induction node as [v Hv | fields IH] using value_node_ind;
    intros t room indent lines Ht Hroom.
  - rewrite tree_of_eq in Ht. destruct v; try discriminate;
      destruct (get_label _); discriminate.
  - rewrite tree_of_eq in Ht. rewrite _walk_pretty_eq.
    destruct (get_label (VDict fields)) as [label|e]; [|discriminate].
    rewrite bind_ok, dict_get_fields, bind_ok.
    destruct (assoc "children" fields) as [children|] eqn:Hc.
    + destruct children as [| | | | | nodes |]; try discriminate.
      destruct (mapM tree_of nodes) as [kids|] eqn:Hkids; [|discriminate].
      injection Ht as <-. simpl py_iter. rewrite bind_ok.
      apply mapM_Some in Hkids. cbn [height] in Hroom.
      apply (walk_children_deep room indent nodes kids).
      * specialize (IH _ _ (assoc_In _ _ _ Hc)).
        clear -IH Hkids. induction Hkids as [|child kid nodes kids Hk _ IHk]; [constructor|].
        inversion IH; subst. constructor; [|now apply IHk].
        split; [exact Hk|]. intros room' indent' lines' Hlt.
        exact (H1 kid room' indent' lines' Hk Hlt).
      * lia.
      * now destruct (or_new lines).
    + injection Ht as <-. cbn in Hroom. lia.
Qed.

Lemma flatten_length t : forall depth, length (flatten depth t) = size t.
Proof.
  induction t as [label children IH] using outline_nested_ind.
  intros depth. simpl. f_equal.
  induction IH as [|x l Hx _ IHl]; simpl; [reflexivity|].
  now rewrite length_app, Hx, IHl.
Qed.

(** ** Sparse but valid nodes *)

Lemma valid_node_inv n :
  valid_node n = true -> exists fields, n = VDict fields.
Proof. destruct n; try discriminate. eauto. Qed.

Lemma valid_node_field fields key v :
  valid_node (VDict fields) = true ->
  assoc key fields = Some v ->
  (if String.eqb key "programLabel"
   then is_str v || list_all valid_fragment v
   else if String.eqb key "contributedNode"
   then valid_contributed v
   else if String.eqb key "children"
   then list_all valid_node v
   else true) = true.
Proof.
  cbn [valid_node]. rewrite forallb_forall. intros Hall Hk.
  specialize (Hall _ (assoc_In _ _ _ Hk)). cbn [fst snd] in Hall.
  destruct (String.eqb key "programLabel"); [exact Hall|].
  destruct (String.eqb key "contributedNode"); [exact Hall|].
  destruct (String.eqb key "children"); [|reflexivity].
  destruct v; try discriminate. exact Hall.
Qed.

Lemma returns_ok {A} (m : result A) : returns m = true -> exists a, m = Ok a.
Proof. destruct m; [eauto | discriminate]. Qed.

Lemma type_label_returns fields :
  valid_node (VDict fields) = true ->
  returns (type_label (VDict fields)) = true.
Proof.
  intros Hn. unfold type_label.
  rewrite dict_get_fields, bind_ok.
  destruct (assoc "contributedNode" fields) as [cn|] eqn:Hcn; [|reflexivity].
  pose proof (valid_node_field _ _ _ Hn Hcn) as Hv. cbn in Hv.
  destruct (dict_all_inv _ _ Hv) as [cf ->].
  rewrite dict_get_fields, bind_ok.
  destruct (assoc "type" cf) as [ty|] eqn:Hty; [|reflexivity].
  pose proof (dict_all_assoc _ _ _ _ Hv Hty) as Hs. rewrite field_same in Hs.
  destruct (is_str_inv _ Hs) as [t ->].
  destruct (truthy (VStr t)); reflexivity.
Qed.

Lemma fragment_part_returns d :
  valid_fragment d = true -> returns (fragment_part d) = true.
Proof.
  intros Hd. destruct (dict_all_inv _ _ Hd) as [f ->].
  unfold fragment_part, py_contains, py_getitem.
  rewrite !lookup_with_assoc, !bind_ok.
  destruct (assoc "value" f) as [v|]; [reflexivity|].
  destruct (assoc "translationKey" f) as [key|] eqn:Hkey; [|reflexivity].
  pose proof (dict_all_assoc _ _ _ _ Hd Hkey) as Hs. rewrite field_same in Hs.
  destruct (is_str_inv _ Hs) as [k ->]. reflexivity.
Qed.

Lemma label_parts_return fragments :
  forallb valid_fragment fragments = true ->
  forall parts, returns (for_each append_part fragments parts) = true.
Proof.
  induction fragments as [|d rest IH]; intros Hall parts; simpl; [reflexivity|].
  apply andb_prop in Hall as [Hd Hrest].
  unfold append_part at 1.
  destruct (returns_ok _ (fragment_part_returns d Hd)) as [p ->].
  rewrite bind_ok. simpl. apply IH, Hrest.
Qed.

Lemma get_label_returns n :
  valid_node n = true -> returns (get_label n) = true.
Proof.
  intros Hn. destruct (valid_node_inv n Hn) as [fields ->].
  pose proof (type_label_returns fields Hn) as Htype.
  unfold get_label. rewrite dict_get_fields, bind_ok.
  destruct (assoc "programLabel" fields) as [pl|] eqn:Hpl; [|exact Htype].
  pose proof (valid_node_field _ _ _ Hn Hpl) as Hv. cbn in Hv.
  destruct pl; try exact Htype.
  - destruct (truthy (VStr (PyStr.strip s))); [reflexivity | exact Htype].
  - cbn in Hv.
    destruct (returns_ok _ (label_parts_return items Hv [])) as [parts ->].
    rewrite bind_ok.
    destruct (truthy (VList (map VStr parts))); [reflexivity | exact Htype].
Qed.

Lemma mapM_tree_of_returns nodes :
  Forall (fun n => valid_node n = true -> exists t, tree_of n = Some t) nodes ->
  forallb valid_node nodes = true ->
  exists kids, mapM tree_of nodes = Some kids.
Proof.
  induction 1 as [|n nodes Hn _ IH]; intros Hall; simpl.
  - eauto.
  - apply andb_prop in Hall as [Hv Hrest].
    destruct (Hn Hv) as [t Ht]. destruct (IH Hrest) as [kids Hkids].
    exists (t :: kids). cbn. rewrite Ht. cbn. rewrite Hkids. reflexivity.
Qed.

(** A valid node stands for a tree. *)
Lemma tree_of_returns n :
  valid_node n = true -> exists t, tree_of n = Some t.
Proof.
  induction n as [v Hv | fields IH] using value_node_ind; intros Hn.
  - destruct (valid_node_inv v Hn) as [fields ->]. discriminate.
  - rewrite tree_of_eq.
    destruct (returns_ok _ (get_label_returns _ Hn)) as [label ->].
    destruct (assoc "children" fields) as [children|] eqn:Hc; [|eauto].
    pose proof (valid_node_field _ _ _ Hn Hc) as Hv. cbn in Hv.
    destruct (list_all_inv _ _ Hv) as (nodes & -> & Hnodes).
    destruct (mapM_tree_of_returns nodes (IH _ _ (assoc_In _ _ _ Hc)) Hnodes)
      as [kids ->].
    eexists; reflexivity.
Qed.

Lemma _walk_pretty_returns n room indent lines :
  valid_node n = true ->
  node_height n <= S room ->
  returns (_walk_pretty room n indent lines) = true.
Proof.
  intros Hn Hroom. destruct (tree_of_returns n Hn) as [t Ht].
  rewrite (_walk_pretty_flatten n t room indent lines Ht); [reflexivity|].
  now rewrite (tree_height n t Ht).
Qed.

Lemma _walk_pretty_raises n room indent lines :
  valid_node n = true ->
  S room < node_height n ->
  _walk_pretty room n indent lines = Raise RecursionError.
Proof.
  intros Hn Hroom. destruct (tree_of_returns n Hn) as [t Ht].
  apply (_walk_pretty_deep n t room indent lines Ht).
  now rewrite (tree_height n t Ht).
Qed.

(** ** The program reshaper *)

Lemma valid_node_children c :
  valid_node c = true ->
  dict_get c "children" (VList []) = Ok (VList (items_at ["children"] c)) /\
  forallb valid_node (items_at ["children"] c) = true.
Proof.
  intros Hc. destruct (valid_node_inv c Hc) as [fields ->].
  rewrite dict_get_fields. unfold items_at. cbn [field_at].
  destruct (assoc "children" fields) as [v|] eqn:Hv; [|split; reflexivity].
  pose proof (valid_node_field _ _ _ Hc Hv) as Hl. cbn in Hl.
  destruct (list_all_inv _ _ Hl) as (items & -> & Hitems).
  split; [reflexivity | exact Hitems].
Qed.

Lemma valid_node_functions n :
  valid_node n = true ->
  (cn ← dict_get n "contributedNode" (VDict []);
   t ← dict_get cn "type" VNone;
   mret (eq_str t "ur-functions")) = Ok (is_functions_container n).
Proof.
  intros Hn. destruct (valid_node_inv n Hn) as [fields ->].
  rewrite dict_get_fields, bind_ok. unfold is_functions_container. cbn [field_at].
  destruct (assoc "contributedNode" fields) as [cn|] eqn:Hcn; [|reflexivity].
  pose proof (valid_node_field _ _ _ Hn Hcn) as Hv. cbn in Hv.
  destruct (dict_all_inv _ _ Hv) as [cf ->].
  rewrite dict_get_fields, bind_ok.
  now destruct (assoc "type" cf).
Qed.

Lemma first_functions_valid nodes :
  forallb valid_node nodes = true ->
  first_functions nodes =
  Ok (VList (match List.find is_functions_container nodes with
             | Some container => items_at ["children"] container
             | None => []
             end)).
Proof.
  induction nodes as [|n rest IH]; intros Hall; [reflexivity|].
  apply andb_prop in Hall as [Hn Hrest].
  pose proof (valid_node_functions n Hn) as Hf.
  cbn [first_functions List.find].
  destruct (dict_get n "contributedNode" (VDict [])) as [cn|e]; [|discriminate].
  rewrite bind_ok in Hf. rewrite bind_ok.
  destruct (dict_get cn "type" VNone) as [t|e]; [|discriminate].
  rewrite bind_ok in Hf. rewrite bind_ok. injection Hf as ->.
  destruct (is_functions_container n).
  - apply (valid_node_children n Hn).
  - apply IH, Hrest.
Qed.

Lemma variable_leaves declarations :
  forallb is_dict declarations = true ->
  forall leaves,
    for_each append_leaf declarations leaves = Ok (leaves ++ map leaf_of declarations).
Proof.
  induction declarations as [|var rest IH]; intros Hall leaves; simpl.
  - now rewrite app_nil_r.
  - apply andb_prop in Hall as [Hvar Hrest].
    destruct (is_dict_inv _ Hvar) as [vf ->].
    unfold append_leaf at 1, variable_leaf.
    rewrite dict_get_fields, !bind_ok. simpl.
    rewrite IH by assumption. rewrite <- app_assoc.
    unfold leaf_of at 2. cbn [field_at app].
    now destruct (assoc "name" vf).
Qed.

Lemma program_declarations p :
  valid_program p = true ->
  dict_get p "variableDeclarations" (VList [])
  = Ok (VList (items_at ["variableDeclarations"] p)) /\
  forallb (dict_all (field "name" is_str)) (items_at ["variableDeclarations"] p) = true.
Proof.
  intros Hp. destruct (dict_all_inv _ _ Hp) as [pf ->].
  rewrite dict_get_fields. unfold items_at. cbn [field_at].
  destruct (assoc "variableDeclarations" pf) as [v|] eqn:Hv; [|split; reflexivity].
  pose proof (dict_all_assoc _ _ _ _ Hp Hv) as Hc.
  apply andb_prop in Hc as [Hc _]. rewrite field_same in Hc.
  destruct (list_all_inv _ _ Hc) as (decls & -> & Hdecls).
  split; [reflexivity | exact Hdecls].
Qed.

Lemma program_children p :
  valid_program p = true ->
  (content ← dict_get p "programContent" (VDict []);
   dict_get content "children" (VList []))
  = Ok (VList (items_at ["programContent"; "children"] p)) /\
  forallb valid_node (items_at ["programContent"; "children"] p) = true.
Proof.
  intros Hp. destruct (dict_all_inv _ _ Hp) as [pf ->].
  rewrite dict_get_fields, bind_ok. unfold items_at. cbn [field_at].
  destruct (assoc "programContent" pf) as [content|] eqn:Hcontent; [|split; reflexivity].
  pose proof (dict_all_assoc _ _ _ _ Hp Hcontent) as Hc.
  apply andb_prop in Hc as [_ Hc]. rewrite field_same in Hc.
  destruct (dict_all_inv _ _ Hc) as [cf ->].
  rewrite dict_get_fields.
  destruct (assoc "children" cf) as [v|] eqn:Hv; [|split; reflexivity].
  pose proof (dict_all_assoc _ _ _ _ Hc Hv) as Hl. rewrite field_same in Hl.
  destruct (list_all_inv _ _ Hl) as (nodes & -> & Hnodes).
  split; [reflexivity | exact Hnodes].
Qed.

(** The [program] part of a valid document, or the empty mapping that
    stands for it when it is absent. *)
Lemma document_program data :
  valid_document data = true ->
  exists p,
    dict_get data "program" (VDict []) = Ok p /\
    valid_program p = true /\
    (forall keys, items_at ("program" :: keys) data = items_at keys p).
Proof.
  intros Hd. destruct (dict_all_inv _ _ Hd) as [df ->].
  rewrite dict_get_fields. unfold items_at. cbn [field_at].
  destruct (assoc "program" df) as [p|] eqn:Hp.
  - exists p. split; [reflexivity|]. split; [|reflexivity].
    pose proof (dict_all_assoc _ _ _ _ Hd Hp) as Hc.
    apply andb_prop in Hc as [_ Hc]. now rewrite field_same in Hc.
  - exists (VDict []). split; [reflexivity|]. split; [reflexivity|].
    intros [|k keys]; reflexivity.
Qed.

Lemma forallb_weaken {A} (f g : A -> bool) l :
  (forall x, f x = true -> g x = true) ->
  forallb f l = true -> forallb g l = true.
Proof.
  intros Hfg. rewrite !forallb_forall. auto.
Qed.

Lemma dict_all_is_dict check v : dict_all check v = true -> is_dict v = true.
Proof. now destruct v. Qed.

(** The reshaper on a valid document: the tree the specification
    describes. *)
Lemma outline_tree_valid data :
  valid_document data = true ->
  outline_tree data =
  Ok (section "Program"
        [section "Variables Setup" (map leaf_of (declared_variables data));
         section "Robot Program" (main_program_body data)]).
Proof.
  intros Hd. unfold outline_tree, declared_variables, main_program_body.
  destruct (document_program data Hd) as (p & -> & Hp & Hitems).
  rewrite !Hitems, !bind_ok.
  destruct (program_declarations p Hp) as [-> Hdecls].
  destruct (program_children p Hp) as [Hchildren Hnodes].
  rewrite bind_ok. cbn [py_iter]. rewrite bind_ok.
  rewrite variable_leaves
    by (eapply forallb_weaken; [apply dict_all_is_dict | exact Hdecls]).
  rewrite bind_ok. cbn [app]. rewrite bind_ok.
  destruct (dict_get p "programContent" (VDict [])) as [content|e]; [|discriminate].
  rewrite bind_ok in Hchildren. rewrite bind_ok, Hchildren, bind_ok.
  cbn [py_iter]. rewrite bind_ok.
  rewrite (first_functions_valid _ Hnodes), bind_ok.
  destruct (List.find is_functions_container (items_at ["programContent"; "children"] p))
    as [container|] eqn:Hfind; [|reflexivity].
  assert (Hcontainer : valid_node container = true).
  { apply find_some in Hfind as [Hin _].
    rewrite forallb_forall in Hnodes. now apply Hnodes. }
  destruct (valid_node_children container Hcontainer) as [_ Hkids].
  destruct (items_at ["children"] container) as [|first others]; [reflexivity|].
  cbn [truthy first_item]. rewrite bind_ok.
  apply andb_prop in Hkids as [Hfirst _].
  destruct (valid_node_children first Hfirst) as [-> _].
  reflexivity.
Qed.

Lemma leaf_of_valid var :
  dict_all (field "name" is_str) var = true -> valid_node (leaf_of var) = true.
Proof.
  intros Hvar. destruct (dict_all_inv _ _ Hvar) as [vf ->].
  unfold leaf_of. cbn [field_at].
  destruct (assoc "name" vf) as [name|] eqn:Hname; [|reflexivity].
  pose proof (dict_all_assoc _ _ _ _ Hvar Hname) as Hs. rewrite field_same in Hs.
  destruct (is_str_inv _ Hs) as [s ->]. reflexivity.
Qed.

Lemma main_program_body_valid data :
  valid_document data = true ->
  forallb valid_node (main_program_body data) = true.
Proof.
  intros Hd. unfold main_program_body.
  destruct (document_program data Hd) as (p & _ & Hp & ->).
  destruct (program_children p Hp) as [_ Hnodes].
  destruct (List.find _ _) as [container|] eqn:Hfind; [|reflexivity].
  apply find_some in Hfind as [Hin _].
  rewrite forallb_forall in Hnodes.
  destruct (valid_node_children container (Hnodes _ Hin)) as [_ Hkids].
  destruct (items_at ["children"] container) as [|first others]; [reflexivity|].
  apply andb_prop in Hkids as [Hfirst _].
  apply (valid_node_children first Hfirst).
Qed.

Lemma outline_root_valid data :
  valid_document data = true ->
  valid_node
    (section "Program"
       [section "Variables Setup" (map leaf_of (declared_variables data));
        section "Robot Program" (main_program_body data)]) = true.
Proof.
  intros Hd. cbn. rewrite (main_program_body_valid data Hd).
  rewrite !andb_true_r. unfold declared_variables.
  destruct (document_program data Hd) as (p & _ & Hp & ->).
  destruct (program_declarations p Hp) as [_ Hdecls].
  apply forallb_forall. intros leaf Hleaf.
  apply in_map_iff in Hleaf as (var & <- & Hvar).
  rewrite forallb_forall in Hdecls. apply leaf_of_valid, Hdecls, Hvar.
Qed.

Lemma outline_lines_returns room data :
  valid_document data = true ->
  node_height (outline_of data) <= S room ->
  returns (outline_lines room data) = true.
Proof.
  intros Hd Hroom. unfold outline_lines.
  rewrite (outline_tree_valid data Hd), bind_ok.
  apply _walk_pretty_returns; [apply outline_root_valid, Hd | exact Hroom].
Qed.

Lemma outline_lines_raises room data :
  valid_document data = true ->
  S room < node_height (outline_of data) ->
  outline_lines room data = Raise RecursionError.
Proof.
  intros Hd Hroom. unfold outline_lines.
  rewrite (outline_tree_valid data Hd), bind_ok.
  apply _walk_pretty_raises; [apply outline_root_valid, Hd | exact Hroom].
Qed.

(** ** Chains *)

Lemma chain_valid n : valid_node (Sample.chain n) = true.
Proof.
  induction n as [|n IH]; [reflexivity|].
  cbn. now rewrite IH.
Qed.

Lemma chain_tree_of n : tree_of (Sample.chain n) = Some (Sample.chain_tree n).
Proof.
  induction n as [|n IH]; [reflexivity|].
  rewrite tree_of_eq. cbn [Sample.chain Sample.chain_tree].
  change (get_label (VDict [("children", VList [Sample.chain n])]))
    with (@Ok string "Unknown").
  change (assoc "children" [("children", VList [Sample.chain n])])
    with (Some (VList [Sample.chain n])).
  cbn [mapM]. now rewrite IH.
Qed.

Lemma chain_height n : node_height (Sample.chain n) = S n.
Proof.
  induction n as [|n IH]; [reflexivity|].
  cbn [Sample.chain node_height]. rewrite lookup_with_assoc.
  change (assoc "children" [("children", VList [Sample.chain n])])
    with (Some (VList [Sample.chain n])).
  unfold list_max. cbn [map fold_right]. now rewrite IH.
Qed.

(** The loop over the one child of a node. *)
Lemma walk_one_child room child indent cur :
  for_each
    (fun cur child =>
       r ← nested_call room child (S indent) (Some cur);
       mret (after_call cur r))
    [child] cur
  = (r ← nested_call room child (S indent) (Some cur); mret (after_call cur r)).
Proof.
  cbn [for_each]. now destruct (nested_call room child (S indent) (Some cur)).
Qed.

(** A chain longer than the room left makes the flattener raise. *)
Lemma chain_overflows n :
  forall room indent lines,
    room < n ->
    _walk_pretty room (Sample.chain n) indent lines = Raise RecursionError.
Proof.
  induction n as [|n IH]; intros room indent lines Hroom; [lia|].
  rewrite _walk_pretty_eq. cbn [Sample.chain].
  change (get_label (VDict [("children", VList [Sample.chain n])]))
    with (@Ok string "Unknown").
  rewrite bind_ok, dict_get_fields, bind_ok.
  change (assoc "children" [("children", VList [Sample.chain n])])
    with (Some (VList [Sample.chain n])).
  cbn [py_iter]. rewrite bind_ok, walk_one_child.
  destruct room as [|room']; [reflexivity|].
  cbn [nested_call]. now rewrite IH by lia.
Qed.

(** The flattener on a section: the line [Unknown], then the loop over
    its children. *)
Lemma walk_section room title nodes indent lines :
  _walk_pretty room (section title nodes) indent lines =
  for_each
    (fun cur child =>
       r ← nested_call room child (S indent) (Some cur);
       mret (after_call cur r))
    nodes (or_new lines ++ [PyStr.repeat "  " indent +:+ "Unknown"]).
Proof.
  rewrite _walk_pretty_eq. reflexivity.
Qed.

Lemma deep_document_valid n : valid_document (Sample.deep_document n) = true.
Proof.
  cbn. now rewrite chain_valid.
Qed.

Lemma deep_document_outline n :
  outline_of (Sample.deep_document n)
  = section "Program"
      [section "Variables Setup" []; section "Robot Program" [Sample.chain n]].
Proof. reflexivity. Qed.

Lemma deep_document_height n :
  node_height (outline_of (Sample.deep_document n)) = n + 3.
Proof.
  rewrite deep_document_outline.
  change (S (Nat.max (S 0)
               (Nat.max (S (Nat.max (node_height (Sample.chain n)) 0)) 0)) = n + 3).
  rewrite chain_height. lia.
Qed.

(** A main program that is a chain longer than the room left makes the
    outline raise. *)
Lemma deep_document_overflows n room :
  room < n + 2 ->
  outline_lines room (Sample.deep_document n) = Raise RecursionError.
Proof.
  intros Hroom. unfold outline_lines.
  rewrite (outline_tree_valid _ (deep_document_valid n)), bind_ok.
  fold (outline_of (Sample.deep_document n)). rewrite deep_document_outline.
  rewrite walk_section. cbn [for_each].
  destruct room as [|room1]; [reflexivity|].
  cbn [nested_call]. rewrite walk_section. cbn [for_each]. rewrite bind_ok.
  cbn [mret result_ret]. rewrite walk_section, walk_one_child.
  destruct room1 as [|room2]; [reflexivity|].
  cbn [nested_call]. now rewrite chain_overflows by lia.
Qed.

(** ** The script emitter *)

Lemma document_application data :
  valid_document data = true ->
  exists a,
    dict_get data "application" (VDict []) = Ok a /\
    valid_application a = true /\
    (forall keys, keys <> [] -> field_at ("application" :: keys) data = field_at keys a).
Proof.
  intros Hd. destruct (dict_all_inv _ _ Hd) as [df ->].
  rewrite dict_get_fields. cbn [field_at].
  destruct (assoc "application" df) as [a|] eqn:Ha.
  - exists a. split; [reflexivity|]. split; [|reflexivity].
    pose proof (dict_all_assoc _ _ _ _ Hd Ha) as Hc.
    apply andb_prop in Hc as [Hc _]. now rewrite field_same in Hc.
  - exists (VDict []). split; [reflexivity|]. split; [reflexivity|].
    intros [|k keys] Hk; [congruence | reflexivity].
Qed.

Lemma script_lines_valid data stem :
  valid_document data = true ->
  script_lines data stem =
  Ok (("def " +:+ function_name data stem +:+ "():")
        :: hidden_variable_line
        :: map (fun ln => "  " +:+ ln) (PyStr.splitlines (script_body data))).
Proof.
  intros Hd. unfold script_lines, function_name, script_body.
  destruct (document_application data Hd) as (a & -> & Ha & Hfields).
  rewrite !Hfields by discriminate. rewrite bind_ok.
  destruct (dict_all_inv _ _ Ha) as [af ->].
  rewrite dict_get_fields, bind_ok. cbn [field_at].
  assert (Hscript :
    (holder ← dict_get (VDict af) "urscript" (VDict []);
     dict_get holder "script" (VStr ""))
    = Ok (VStr match match assoc "urscript" af with
                     | Some v' => field_at ["script"] v'
                     | None => None
                     end with
               | Some (VStr s) => s
               | _ => EmptyString
               end)).
  { rewrite dict_get_fields, bind_ok.
    destruct (assoc "urscript" af) as [holder|] eqn:Hholder; [|reflexivity].
    pose proof (dict_all_assoc _ _ _ _ Ha Hholder) as Hc.
    apply andb_prop in Hc as [_ Hc]. rewrite field_same in Hc.
    destruct (dict_all_inv _ _ Hc) as [hf ->].
    rewrite dict_get_fields. cbn [field_at].
    destruct (assoc "script" hf) as [v|] eqn:Hv; [|reflexivity].
    pose proof (dict_all_assoc _ _ _ _ Hc Hv) as Hs. rewrite field_same in Hs.
    now destruct (is_str_inv _ Hs) as [s ->]. }
  destruct (assoc "applicationInfo" af) as [info|] eqn:Hinfo.
  - pose proof (dict_all_assoc _ _ _ _ Ha Hinfo) as Hc.
    apply andb_prop in Hc as [Hc _]. rewrite field_same in Hc.
    destruct (is_dict_inv _ Hc) as [nf ->].
    rewrite dict_get_fields, !bind_ok. cbn [field_at].
    destruct (dict_get (VDict af) "urscript" (VDict [])) as [holder|e]; [|discriminate].
    rewrite bind_ok in Hscript. rewrite bind_ok, Hscript, bind_ok.
    now destruct (assoc "name" nf).
  - rewrite dict_get_fields, !bind_ok. cbn [assoc lookup_with].
    destruct (dict_get (VDict af) "urscript" (VDict [])) as [holder|e]; [|discriminate].
    rewrite bind_ok in Hscript. rewrite bind_ok, Hscript, bind_ok.
    reflexivity.
Qed.

(** ** Paths and files *)

Lemma append_cancel (a b c : string) : a +:+ b = a +:+ c -> b = c.
Proof.
  induction a as [|x a IH]; simpl; [auto|].
  intros [= H]. now apply IH.
Qed.

Lemma append_not_self (a : string) x rest : a <> a +:+ String x rest.
Proof.
  induction a as [|y a IH]; simpl; [discriminate|].
  intros [= H]. now apply IH in H.
Qed.

Lemma take_drop i (s : string) : PyStr.take i s +:+ PyStr.drop i s = s.
Proof.
  revert s. induction i as [|i IH]; intros [|c s]; try reflexivity.
  change (String c (PyStr.take i s +:+ PyStr.drop i s) = String c s).
  now rewrite IH.
Qed.

Lemma rfind_drop c (s : string) i :
  PyStr.rfind c s = Some i -> exists rest, PyStr.drop i s = String c rest.
Proof.
  revert i. induction s as [|a s IH]; simpl; intros i; [discriminate|].
  destruct (PyStr.rfind c s) as [j|].
  - intros [= <-]. simpl. now apply IH.
  - destruct (Ascii.eqb a c) eqn:E; [|discriminate].
    intros [= <-]. apply Ascii.eqb_eq in E as ->. simpl. eauto.
Qed.

(** The stem never is the name followed by an underscore and more: the
    output file of a job is not its source file. *)
Lemma stem_tail_differs (n rest : string) :
  n <> Path.stem_of_name n +:+ String "_" rest.
Proof.
  unfold Path.stem_of_name.
  destruct (PyStr.rfind "." n) as [i|] eqn:Hi; [|apply append_not_self].
  destruct ((0 <? i) && (i <? String.length n - 1)); [|apply append_not_self].
  intros Heq. destruct (rfind_drop _ _ _ Hi) as [tail Htail].
  rewrite <- (take_drop i n) in Heq at 1.
  apply append_cancel in Heq. congruence.
Qed.

Lemma child_not_source (src dst : path) (tail : string) :
  Path.child dst (Path.stem src +:+ String "_" tail) <> src.
Proof.
  unfold Path.child, Path.stem, Path.name. intros Heq.
  apply (stem_tail_differs (List.last src EmptyString) tail).
  rewrite <- Heq at 1. now rewrite last_last.
Qed.

Lemma parent_child (p : path) (file : string) : Path.parent (Path.child p file) = p.
Proof. apply removelast_last. Qed.

Lemma child_not_parent (p : path) (file : string) : Path.child p file <> p.
Proof.
  unfold Path.child. intros H. apply (f_equal (@length string)) in H.
  rewrite length_app in H. simpl in H. lia.
Qed.

Lemma is_dir_child (fs : filesystem) (p : path) (file : string) :
  Path.is_dir fs (Path.child p file) =
  match fs !! Path.child p file with Some Dir => true | _ => false end.
Proof. unfold Path.child. now destruct p. Qed.

Lemma is_dir_insert_ne (fs : filesystem) (p q : path) (e : entry) :
  p <> q -> Path.is_dir (<[p := e]> fs) q = Path.is_dir fs q.
Proof.
  intros Hne. destruct q as [|x q]; [reflexivity|].
  unfold Path.is_dir. now rewrite lookup_insert_ne.
Qed.

(** What a successful write leaves, and that writing the same text again
    succeeds and changes nothing. *)
Lemma write_child_ok (fs fs1 : filesystem) (dir : path) (file text : string) :
  Path.write_text (Path.child dir file) text fs = (Ok tt, fs1) ->
  fs1 = <[Path.child dir file := File text]> fs /\
  Path.encodable text = true /\
  Path.write_text (Path.child dir file) text fs1 = (Ok tt, fs1).
Proof.
  unfold Path.write_text. rewrite parent_child.
  destruct (Path.is_dir fs dir && negb (Path.is_dir fs (Path.child dir file))) eqn:E;
    [|discriminate].
  destruct (Path.encodable text) eqn:Henc; [|discriminate].
  intros [= <-]. split; [reflexivity|]. split; [reflexivity|].
  apply andb_prop in E as [Hdir _].
  rewrite is_dir_insert_ne by apply child_not_parent. rewrite Hdir.
  rewrite is_dir_child, lookup_insert_eq. simpl.
  now rewrite insert_insert_eq.
Qed.

(** A write that raises either came to nothing, or opened the file and
    left it empty: the text is encoded after the file is truncated. *)
Lemma write_child_raise (fs fs1 : filesystem) (dir : path) (file text : string) e :
  Path.write_text (Path.child dir file) text fs = (Raise e, fs1) ->
  (e <> UnicodeEncodeError /\ fs1 = fs) \/
  (e = UnicodeEncodeError /\ Path.encodable text = false /\
   fs1 = <[Path.child dir file := File EmptyString]> fs).
Proof.
  unfold Path.write_text.
  destruct (_ && _).
  - destruct (Path.encodable text); [discriminate|].
    intros [= <- <-]. right. repeat split.
  - intros [= <- <-]. left. split; [discriminate | reflexivity].
Qed.

Lemma read_text_insert_ne (fs : filesystem) (p q : path) (e : entry) :
  p <> q ->
  Path.read_text q (<[p := e]> fs) =
  (fst (Path.read_text q fs), <[p := e]> fs).
Proof.
  intros Hne. unfold Path.read_text. rewrite lookup_insert_ne by assumption.
  destruct (fs !! q) as [[text|]|]; reflexivity.
Qed.

Lemma urpx_to_script_write data stem dst_dir :
  urpx_to_script data stem dst_dir =
  write_lines (script_lines data stem) dst_dir (stem +:+ "_converted.script").
Proof. reflexivity. Qed.

Lemma urpx_to_txt_write room data stem dst_dir :
  urpx_to_txt room data stem dst_dir =
  write_lines (outline_lines room data) dst_dir (stem +:+ "_converted.txt").
Proof. reflexivity. Qed.

Lemma write_lines_ok (lines : result (list string)) (dst_dir : path) (file : string) (fs fs1 : filesystem) (out : path) :
  write_lines lines dst_dir file fs = (Ok out, fs1) ->
  out = Path.child dst_dir file /\
  (exists ls, lines = Ok ls /\ fs1 = <[out := File (PyStr.join LF ls)]> fs) /\
  write_lines lines dst_dir file fs1 = (Ok out, fs1).
Proof.
  unfold write_lines. destruct lines as [ls|e]; [|discriminate].
  destruct (Path.write_text _ _ fs) as [[[]|e] fs'] eqn:Hw; [|discriminate].
  intros [= <- <-]. destruct (write_child_ok _ _ _ _ _ Hw) as (Hfs & _ & Hagain).
  split; [reflexivity|]. split; [eauto|]. now rewrite Hagain.
Qed.

Lemma write_lines_raise (lines : result (list string)) (dst_dir : path) (file : string) (fs fs1 : filesystem) (e : exn) :
  write_lines lines dst_dir file fs = (Raise e, fs1) ->
  fs1 = fs \/
  (e = UnicodeEncodeError /\
   exists ls, lines = Ok ls /\ Path.encodable (PyStr.join LF ls) = false /\
              fs1 = <[Path.child dst_dir file := File EmptyString]> fs).
Proof.
  unfold write_lines. destruct lines as [ls|e']; [|intros [= _ <-]; now left].
  destruct (Path.write_text _ _ fs) as [[[]|e'] fs'] eqn:Hw; [discriminate|].
  intros [= <- <-].
  destruct (write_child_raise _ _ _ _ _ _ Hw) as [[_ ->]|(-> & Henc & ->)];
    [now left | right; eauto].
Qed.

(** The path a job writes to. *)
Lemma run_output_name (stem mode : string) :
  output_name stem mode =
  if String.eqb mode "script"
  then stem +:+ "_converted.script" else stem +:+ "_converted.txt".
Proof. unfold output_name. now destruct (String.eqb mode "script"). Qed.

(** A job that raises leaves the file system as it found it, or with its
    output file opened and left empty when the text cannot be encoded. *)
Lemma run_raise_keeps_files (json_loads : string -> option value) (room : nat)
    (job : Job.t) (fs fs1 : filesystem) (e : exn) :
  Job.run json_loads room job fs = (Raise e, fs1) ->
  fs1 = fs \/
  (e = UnicodeEncodeError /\
   fs1 = <[Path.child (Job.dst job)
             (output_name (Path.stem (Job.src job)) (Job.mode job))
           := File EmptyString]> fs).
Proof.
  unfold Job.run, Path.read_text. rewrite run_output_name.
  destruct (fs !! Job.src job) as [[text|]|]; try (intros [= _ <-]; now left).
  destruct (json_loads text) as [data|]; [|intros [= _ <-]; now left].
  destruct (String.eqb (Job.mode job) "script").
  - rewrite urpx_to_script_write. intros Hw.
    destruct (write_lines_raise _ _ _ _ _ _ Hw) as [->|(-> & ls & _ & _ & ->)];
      [now left | now right].
  - rewrite urpx_to_txt_write. intros Hw.
    destruct (write_lines_raise _ _ _ _ _ _ Hw) as [->|(-> & ls & _ & _ & ->)];
      [now left | now right].
Qed.

(** The job once the source is read and parsed. *)
Lemma run_parsed (json_loads : string -> option value) (room : nat) (job : Job.t)
    (fs : filesystem) (text : string) (data : value) :
  fs !! Job.src job = Some (File text) ->
  json_loads text = Some data ->
  Job.run json_loads room job fs =
  if String.eqb (Job.mode job) "script"
  then urpx_to_script data (Path.stem (Job.src job)) (Job.dst job) fs
  else urpx_to_txt room data (Path.stem (Job.src job)) (Job.dst job) fs.
Proof.
  intros Hsrc Hdata. unfold Job.run, Path.read_text. now rewrite Hsrc, Hdata.
Qed.

Lemma run_ok_parsed (json_loads : string -> option value) (room : nat) (job : Job.t)
    (fs fs1 : filesystem) (out : path) :
  Job.run json_loads room job fs = (Ok out, fs1) ->
  exists text data,
    fs !! Job.src job = Some (File text) /\ json_loads text = Some data.
Proof.
  unfold Job.run, Path.read_text.
  destruct (fs !! Job.src job) as [[text|]|]; try discriminate.
  destruct (json_loads text) as [data|] eqn:Hdata; [|discriminate].
  intros _. exists text, data. split; [reflexivity | exact Hdata].
Qed.

(** * The claims *)

(** C1. In outline mode the two section nodes carry their titles in a
    [name] field, which the label resolver does not read: the root line and
    both section lines read [Unknown], for any title and any children; the
    document with two variables shows the lines that are written. *)
Theorem section_headers_unknown :
  (forall title children, get_label (section title children) = Ok "Unknown") /\
  (forall room,
      outline_lines (S room) (VDict []) = Ok ["Unknown"; "  Unknown"; "  Unknown"]) /\
  (forall room,
      outline_lines (S (S room)) Sample.two_variables
      = Ok ["Unknown"; "  Unknown"; "    speed"; "    force"; "  Unknown"]).
Proof. repeat split; reflexivity. Qed.

(** C2. A label list whose fragments append only empty text makes the
    resolver return the empty string, although the type of the node would
    give a label; an empty label list does fall through to the type. *)
Theorem blank_fragment_label_empty :
  valid_node Sample.blank_fragment = true /\
  get_label Sample.blank_fragment = Ok EmptyString /\
  type_label Sample.blank_fragment = Ok "Move" /\
  get_label Sample.no_fragment = Ok "Move".
Proof. repeat split; reflexivity. Qed.

(** C3. The resolver removes every occurrence of [ur-] from the type, not
    only a leading one: [ur-blur-filter] resolves to [Blfilter], where
    removing the prefix alone gives [Blur Filter]; [ur-move-joint] resolves
    to [Move Joint]. *)
Theorem type_label_removes_inner_prefix :
  get_label (Sample.typed "ur-blur-filter") = Ok "Blfilter" /\
  type_label_spec "ur-blur-filter" = "Blur Filter" /\
  get_label (Sample.typed "ur-move-joint") = Ok "Move Joint" /\
  type_label_spec "ur-move-joint" = "Move Joint".
Proof. repeat split; reflexivity. Qed.

(** C4. For every node tree that is no deeper than the interpreter lets
    the flattener nest its calls, the flattener returns one line per node,
    in depth-first preorder: the node before its children, the children in
    their order and one level deeper, each line being the two-space indent
    repeated depth times and then the resolved label; on a deeper tree it
    raises [RecursionError].  A root with two children, the first with one
    child, gives four lines at depths 0, 1, 2, 1. *)
Theorem flattener_preorder (room : nat) (node : value) (t : outline) :
  tree_of node = Some t ->
  (height t <= S room -> _walk_pretty room node 0 None = Ok (flatten 0 t)) /\
  (S room < height t -> _walk_pretty room node 0 None = Raise RecursionError) /\
  length (flatten 0 t) = size t /\
  (forall r a g b,
      t = Node r [Node a [Node g []]; Node b []] ->
      flatten 0 t = [r; "  " +:+ a; "    " +:+ g; "  " +:+ b] /\
      depths 0 t = [0; 1; 2; 1]).
Proof.
  intros Ht. split; [|split; [|split]].
  - intros Hroom. now rewrite (_walk_pretty_flatten node t room 0 None Ht Hroom).
  - intros Hroom. exact (_walk_pretty_deep node t room 0 None Ht Hroom).
  - apply flatten_length.
  - intros r a g b ->. split; reflexivity.
Qed.

Lemma flattener_preorder_family :
  tree_of Sample.family = Some Sample.family_tree /\
  height Sample.family_tree <= 3 /\
  _walk_pretty 2 Sample.family 0 None
  = Ok ["root"; "  first"; "    grandchild"; "  second"].
Proof.
  split; [reflexivity|]. split; [vm_compute; lia|].
  apply (proj1 (flattener_preorder 2 Sample.family Sample.family_tree eq_refl)).
  vm_compute; lia.
Defined.

(** C4, as worded for every finite tree, fails: a chain of 1200 nodes below
    the root is a finite node tree, and with room for 1000 nested calls the
    flattener raises [RecursionError] instead of returning its lines. *)
Lemma flattener_deep_chain_raises :
  tree_of (Sample.chain 1200) = Some (Sample.chain_tree 1200) /\
  _walk_pretty 1000 (Sample.chain 1200) 0 None = Raise RecursionError /\
  _walk_pretty 1000 (Sample.chain 1200) 0 None
  <> Ok (flatten 0 (Sample.chain_tree 1200)).
Proof.
  assert (H : _walk_pretty 1000 (Sample.chain 1200) 0 None = Raise RecursionError)
    by (apply chain_overflows; lia).
  split; [apply chain_tree_of|]. split; [exact H|]. rewrite H. discriminate.
Qed.

(** C5. On a valid document the reshaper returns the two-section tree: the
    Variables Setup section has one leaf per entry of
    [program.variableDeclarations], in order, whose [programLabel] is the
    entry's [name] or the sentinel when the entry has none; the Robot
    Program section is empty when no node of
    [program.programContent.children] is the functions container. *)
Theorem reshaper_sections (data : value) :
  valid_document data = true ->
  outline_tree data =
    Ok (section "Program"
          [section "Variables Setup" (map leaf_of (declared_variables data));
           section "Robot Program" (main_program_body data)]) /\
  length (map leaf_of (declared_variables data)) = length (declared_variables data) /\
  (forall var name, field_at ["name"] var = Some name ->
                    leaf_of var = VDict [("programLabel", name)]) /\
  (forall var, field_at ["name"] var = None ->
               leaf_of var = VDict [("programLabel", VStr "<anon>")]) /\
  (Forall (fun n => is_functions_container n = false)
          (items_at ["program"; "programContent"; "children"] data) ->
   main_program_body data = []).
Proof.
  intros Hd. split; [now apply outline_tree_valid|].
  split; [apply length_map|].
  split; [intros var name Hname; unfold leaf_of; now rewrite Hname|].
  split; [intros var Hname; unfold leaf_of; now rewrite Hname|].
  intros Hnone. unfold main_program_body.
  destruct (List.find _ _) as [container|] eqn:Hfind; [|reflexivity].
  apply find_some in Hfind as [Hin Hc].
  rewrite List.Forall_forall in Hnone. rewrite (Hnone _ Hin) in Hc. discriminate.
Qed.

Lemma reshaper_sections_two_variables :
  valid_document Sample.two_variables = true /\
  outline_tree Sample.two_variables =
    Ok (section "Program"
          [section "Variables Setup"
             [VDict [("programLabel", VStr "speed")];
              VDict [("programLabel", VStr "force")]];
           section "Robot Program" []]).
Proof.
  split; [reflexivity|].
  exact (proj1 (reshaper_sections Sample.two_variables eq_refl)).
Defined.

(** C6. The script emitter writes the newline-joined lines: the header
    with the name from [application.applicationInfo.name], or the stem of
    the input file when there is none, the hidden verification variable
    line, then every line of [application.urscript.script] behind two
    spaces; an empty or absent script adds no line. *)
Theorem script_emitter_output (data : value) (stem : string) :
  valid_document data = true ->
  script_lines data stem =
    Ok (("def " +:+ function_name data stem +:+ "():")
          :: hidden_variable_line
          :: map (fun ln => "  " +:+ ln) (PyStr.splitlines (script_body data))) /\
  (field_at ["application"; "applicationInfo"; "name"] data = None ->
   function_name data stem = stem) /\
  (script_body data = EmptyString ->
   script_lines data stem =
     Ok ["def " +:+ function_name data stem +:+ "():"; hidden_variable_line]) /\
  (forall (dst_dir : path) (fs : filesystem),
      let out := Path.child dst_dir (stem +:+ "_converted.script") in
      let text := emitted_script (function_name data stem) (script_body data) in
      Path.is_dir fs dst_dir = true ->
      Path.is_dir fs out = false ->
      urpx_to_script data stem dst_dir fs =
        if Path.encodable text
        then (Ok out, <[out := File text]> fs)
        else (Raise UnicodeEncodeError, <[out := File EmptyString]> fs)).
Proof.
  intros Hd. pose proof (script_lines_valid data stem Hd) as Hlines.
  split; [exact Hlines|].
  split; [intros Hname; unfold function_name; now rewrite Hname|].
  split; [intros Hbody; now rewrite Hlines, Hbody|].
  intros dst_dir fs out text Hdir Hout. unfold urpx_to_script.
  rewrite Hlines. fold out. unfold Path.write_text.
  unfold out at 1. rewrite parent_child. fold out. rewrite Hdir, Hout.
  cbn [andb negb]. subst text. unfold emitted_script.
  now destruct (Path.encodable _).
Qed.

Lemma script_emitter_output_pick :
  valid_document Sample.pick = true /\
  script_lines Sample.pick "cell" =
    Ok ["def Pick():"; "  global _hidden_verificationVariable = 0";
        "  move_j(p1)"; "  move_j(p2)"].
Proof.
  split; [reflexivity|].
  exact (proj1 (script_emitter_output Sample.pick "cell" eq_refl)).
Defined.

(** C7. When the text of the source file is not valid JSON the job raises
    the decoding error and the file system is left as it was: no output
    file is written. *)
Theorem invalid_json_raises
    (json_loads : string -> option value) (room : nat) (job : Job.t)
    (fs : filesystem) (text : string) :
  fs !! Job.src job = Some (File text) ->
  json_loads text = None ->
  Job.run json_loads room job fs = (Raise JSONDecodeError, fs).
Proof.
  intros Hsrc Hbad. unfold Job.run, Path.read_text. now rewrite Hsrc, Hbad.
Qed.

Lemma invalid_json_raises_broken :
  Job.run Sample.loads 1000 (Job.make Sample.broken Sample.out_dir "txt") Sample.disk
  = (Raise JSONDecodeError, Sample.disk).
Proof.
  apply (invalid_json_raises Sample.loads 1000
           (Job.make Sample.broken Sample.out_dir "txt") Sample.disk "{");
    reflexivity.
Defined.

(** C8. On a sparse but valid document neither the reshaper nor the
    script emitter raises, and the flattener over the tree of the reshaper
    does not raise when that tree is no deeper than the interpreter lets
    the flattener nest its calls; when it is deeper the flattener raises
    [RecursionError].  On a valid node the label resolver does not raise,
    and the flattener does not raise either unless the node is deeper than
    that. *)
Theorem sparse_documents_never_raise (room : nat) (data : value) (stem : string) :
  valid_document data = true ->
  returns (outline_tree data) = true /\
  (node_height (outline_of data) <= S room ->
   returns (outline_lines room data) = true) /\
  (S room < node_height (outline_of data) ->
   outline_lines room data = Raise RecursionError) /\
  returns (script_lines data stem) = true /\
  (forall node indent lines,
      valid_node node = true ->
      returns (get_label node) = true /\
      (node_height node <= S room ->
       returns (_walk_pretty room node indent lines) = true) /\
      (S room < node_height node ->
       _walk_pretty room node indent lines = Raise RecursionError)).
Proof.
  intros Hd.
  split; [now rewrite (outline_tree_valid data Hd)|].
  split; [now apply outline_lines_returns|].
  split; [now apply outline_lines_raises|].
  split; [now rewrite (script_lines_valid data stem Hd)|].
  intros node indent lines Hn.
  split; [now apply get_label_returns|].
  split; [now apply _walk_pretty_returns | now apply _walk_pretty_raises].
Qed.

Lemma sparse_documents_never_raise_sample :
  valid_document Sample.sparse = true /\
  returns (outline_lines 1000 Sample.sparse) = true /\
  returns (script_lines Sample.sparse "cell") = true.
Proof.
  split; [reflexivity|].
  pose proof (sparse_documents_never_raise 1000 Sample.sparse "cell" eq_refl) as H.
  split; [|exact (proj1 (proj2 (proj2 (proj2 H))))].
  apply (proj1 (proj2 H)). vm_compute. lia.
Defined.

(** C8, as worded for every sparse but valid document, fails: the document
    whose main program is a chain of 1200 nodes is valid, and with room
    for 1000 nested calls the flattener over its tree raises
    [RecursionError]. *)
Lemma deep_document_raises :
  valid_document (Sample.deep_document 1200) = true /\
  outline_lines 1000 (Sample.deep_document 1200) = Raise RecursionError /\
  returns (outline_lines 1000 (Sample.deep_document 1200)) = false.
Proof.
  assert (H : outline_lines 1000 (Sample.deep_document 1200) = Raise RecursionError)
    by (apply deep_document_overflows; lia).
  split; [apply deep_document_valid|]. split; [exact H|]. now rewrite H.
Qed.

(** C9. A job that succeeded succeeds again from the file system it left:
    it writes the same path, named after the stem of the source with
    [_converted] and the extension of the mode, and the file system, hence
    the content of the file, is the same after the second run. *)
Theorem run_twice_same_file
    (json_loads : string -> option value) (room : nat) (job : Job.t)
    (fs fs1 : filesystem) (out : path) :
  Job.run json_loads room job fs = (Ok out, fs1) ->
  Job.run json_loads room job fs1 = (Ok out, fs1) /\
  out = Path.child (Job.dst job)
          (Path.stem (Job.src job) +:+
           (if String.eqb (Job.mode job) "script"
            then "_converted.script" else "_converted.txt")) /\
  exists text, fs1 !! out = Some (File text) /\ fs1 = <[out := File text]> fs.
Proof.
  intros Hrun.
  destruct (run_ok_parsed _ _ _ _ _ _ Hrun) as (text & data & Hsrc & Hdata).
  rewrite (run_parsed _ _ _ _ _ _ Hsrc Hdata) in Hrun.
  assert (Hagain : forall (lines : result (list string)) (tail : string),
             write_lines lines (Job.dst job)
               (Path.stem (Job.src job) +:+ String "_" tail) fs = (Ok out, fs1) ->
             Job.run json_loads room job fs1 =
               (if String.eqb (Job.mode job) "script"
                then urpx_to_script data (Path.stem (Job.src job)) (Job.dst job) fs1
                else urpx_to_txt room data (Path.stem (Job.src job)) (Job.dst job) fs1) /\
             out = Path.child (Job.dst job) (Path.stem (Job.src job) +:+ String "_" tail) /\
             (exists text, fs1 !! out = Some (File text) /\ fs1 = <[out := File text]> fs) /\
             write_lines lines (Job.dst job)
               (Path.stem (Job.src job) +:+ String "_" tail) fs1 = (Ok out, fs1)).
  { intros lines tail Hw.
    destruct (write_lines_ok _ _ _ _ _ _ Hw) as (Hout & (ls & Hls & Hfs) & Hw').
    split; [|split; [exact Hout|split; [|exact Hw']]].
    - apply (run_parsed json_loads room job fs1 text data); [|exact Hdata].
      rewrite Hfs, Hout, lookup_insert_ne by apply child_not_source. exact Hsrc.
    - exists (PyStr.join LF ls). split; [|exact Hfs].
      rewrite Hfs. apply lookup_insert_eq. }
  destruct (String.eqb (Job.mode job) "script").
  - rewrite urpx_to_script_write in Hrun.
    destruct (Hagain _ _ Hrun) as (-> & Hout & Hfile & Hw).
    rewrite urpx_to_script_write. auto.
  - rewrite urpx_to_txt_write in Hrun.
    destruct (Hagain _ _ Hrun) as (-> & Hout & Hfile & Hw).
    rewrite urpx_to_txt_write. auto.
Qed.

Lemma run_twice_same_file_sample :
  Job.run Sample.loads 1000 (Job.make Sample.source Sample.out_dir "script") Sample.disk
  = (Ok ["out"; "cell_converted.script"],
     <[["out"; "cell_converted.script"] :=
         File ("def cell():" +:+ LF +:+ hidden_variable_line)]> Sample.disk) /\
  Job.run Sample.loads 1000 (Job.make Sample.source Sample.out_dir "script")
    (<[["out"; "cell_converted.script"] :=
         File ("def cell():" +:+ LF +:+ hidden_variable_line)]> Sample.disk)
  = (Ok ["out"; "cell_converted.script"],
     <[["out"; "cell_converted.script"] :=
         File ("def cell():" +:+ LF +:+ hidden_variable_line)]> Sample.disk).
Proof.
  assert (H : Job.run Sample.loads 1000
                (Job.make Sample.source Sample.out_dir "script") Sample.disk
              = (Ok ["out"; "cell_converted.script"],
                 <[["out"; "cell_converted.script"] :=
                     File ("def cell():" +:+ LF +:+ hidden_variable_line)]> Sample.disk))
    by reflexivity.
  split; [exact H|].
  exact (proj1 (run_twice_same_file Sample.loads 1000 _ _ _ _ H)).
Defined.




(** * Further properties *)

(** ** Labels *)

Lemma lstrip_head (s : string) c r :
  PyStr.lstrip s = String c r -> PyStr.is_space c = false.
Proof.
  induction s as [|a s IH]; simpl; [discriminate|].
  destruct (PyStr.is_space a) eqn:E; [exact IH|].
  now intros [= <- _].
Qed.

Lemma rstrip_head (s : string) c r :
  PyStr.rstrip s = String c r -> exists r', s = String c r'.
Proof.
  destruct s as [|a s]; simpl; [discriminate|].
  destruct (PyStr.rstrip s); [destruct (PyStr.is_space a)|];
    intros [= <- _]; eauto.
Qed.

Lemma rstrip_last (s : string) c :
  last_char (PyStr.rstrip s) = Some c -> PyStr.is_space c = false.
Proof.
  unfold last_char. induction s as [|a s IH]; simpl; [discriminate|].
  destruct (PyStr.rstrip s) as [|b r] eqn:Hr.
  - destruct (PyStr.is_space a) eqn:E; simpl; [discriminate|].
    now intros [= <-].
  - simpl in IH |- *. rewrite Nat.sub_0_r in IH. exact IH.
Qed.

(** X1. A string [programLabel] with text in it is the label, whatever
    else the node holds; the label is the text without the blanks around
    it: it is not empty and neither starts nor ends with a blank. *)
Theorem string_label_trimmed (fields : list (string * value)) (s : string) :
  assoc "programLabel" fields = Some (VStr s) ->
  PyStr.strip s <> EmptyString ->
  get_label (VDict fields) = Ok (PyStr.strip s) /\
  (forall c, String.get 0 (PyStr.strip s) = Some c -> PyStr.is_space c = false) /\
  (forall c, last_char (PyStr.strip s) = Some c -> PyStr.is_space c = false).
Proof.
  intros Hpl Htext. split; [|split].
  - unfold get_label. rewrite dict_get_fields, Hpl, bind_ok. cbn [truthy].
    destruct (String.eqb (PyStr.strip s) "") eqn:E; [|reflexivity].
    now apply String.eqb_eq in E.
  - intros c Hc. unfold PyStr.strip in *.
    destruct (PyStr.rstrip (PyStr.lstrip s)) as [|a r] eqn:Hr; [discriminate|].
    injection Hc as ->.
    destruct (rstrip_head _ _ _ Hr) as [r' Hl]. exact (lstrip_head _ _ _ Hl).
  - intros c. apply rstrip_last.
Qed.

Lemma string_label_trimmed_padded :
  get_label (VDict Sample.padded) = Ok "Move to P1".
Proof.
  refine (proj1 (string_label_trimmed Sample.padded "  Move to P1  " eq_refl _)).
  discriminate.
Defined.

Lemma silent_fragment_part d :
  silent_fragment d = true -> fragment_part d = Ok None.
Proof.
  unfold silent_fragment, fragment_part.
  destruct (py_contains "value" d) as [[|]|]; try discriminate.
  destruct (py_contains "translationKey" d) as [[|]|]; try discriminate.
  reflexivity.
Qed.

Lemma silent_fragments_skipped fragments :
  forall parts,
    for_each append_part fragments parts =
    for_each append_part (List.filter (fun d => negb (silent_fragment d)) fragments) parts.
Proof.
  induction fragments as [|d rest IH]; intros parts; [reflexivity|].
  cbn [List.filter]. destruct (silent_fragment d) eqn:Hd; cbn [negb for_each].
  - unfold append_part at 1. rewrite (silent_fragment_part d Hd), bind_ok.
    cbn. apply IH.
  - destruct (append_part parts d); [apply IH | reflexivity].
Qed.

(** X2. Fragments that hold neither a [value] nor a [translationKey] play
    no part: the label of a node is the one it has without them. *)
Theorem silent_fragments_ignored (fragments : list value) (rest : list (string * value)) :
  get_label (VDict (("programLabel", VList fragments) :: rest)) =
  get_label
    (VDict (("programLabel",
             VList (List.filter (fun d => negb (silent_fragment d)) fragments)) :: rest)).
Proof.
  unfold get_label. rewrite !dict_get_fields. cbn [assoc lookup_with String.eqb].
  cbn. rewrite <- silent_fragments_skipped.
  destruct (for_each append_part fragments []) as [parts|e]; reflexivity.
Qed.

Lemma value_fragments_parts fragments :
  forall texts parts,
    mapM value_text fragments = Some texts ->
    for_each append_part fragments parts = Ok (parts ++ texts).
Proof.
  induction fragments as [|d rest IH]; intros texts parts Hm.
  - injection Hm as <-. cbn. now rewrite app_nil_r.
  - cbn in Hm. destruct (value_text d) as [t|] eqn:Ht; [|discriminate].
    cbn in Hm. destruct (mapM value_text rest) as [ts|] eqn:Hts; [|discriminate].
    injection Hm as <-.
    destruct d as [| | | | | |f]; try discriminate. cbn in Ht.
    destruct (assoc "value" f) as [v|] eqn:Hv; [|discriminate].
    injection Ht as <-.
    cbn [for_each]. unfold append_part at 1, fragment_part, py_contains, py_getitem.
    rewrite !lookup_with_assoc, Hv, !bind_ok. cbn.
    rewrite (IH ts _ eq_refl), <- app_assoc. reflexivity.
Qed.

(** X3. When every fragment of a label list has a [value], the label is
    the texts of the values, in order, joined by single blanks and trimmed;
    a [translationKey] beside a [value] is not read.  (At least one fragment
    is needed for the list to give the label.) *)
Theorem value_fragments_joined
    (fragments : list value) (rest : list (string * value)) (texts : list string) :
  mapM value_text fragments = Some texts ->
  fragments <> [] ->
  get_label (VDict (("programLabel", VList fragments) :: rest))
  = Ok (PyStr.strip (PyStr.join " " texts)).
Proof.
  intros Hm Hne. unfold get_label. rewrite dict_get_fields. cbn.
  rewrite (value_fragments_parts fragments texts [] Hm). cbn.
  destruct texts as [|t ts]; [|reflexivity].
  destruct fragments as [|d ds]; [congruence|].
  cbn in Hm. destruct (value_text d); [|discriminate].
  cbn in Hm. destruct (mapM value_text ds); discriminate.
Qed.

Lemma value_fragments_joined_spoken :
  get_label (VDict [("programLabel", VList Sample.spoken)]) = Ok "Wait 5".
Proof.
  refine (value_fragments_joined Sample.spoken [] ["Wait"; "5"] eq_refl _).
  discriminate.
Defined.

(** ** The flattener *)

Lemma append_assoc (a b c : string) : (a +:+ b) +:+ c = a +:+ (b +:+ c).
Proof.
  induction a as [|x a IH]; [reflexivity|].
  change (String x ((a +:+ b) +:+ c) = String x (a +:+ (b +:+ c))).
  now rewrite IH.
Qed.

Lemma repeat_add (s : string) k d :
  PyStr.repeat s (k + d) = PyStr.repeat s k +:+ PyStr.repeat s d.
Proof.
  induction k as [|k IH]; simpl; [reflexivity|].
  now rewrite IH, append_assoc.
Qed.

Lemma map_flat_map {A B C} (f : B -> C) (g : A -> list B) l :
  map f (flat_map g l) = flat_map (fun x => map f (g x)) l.
Proof.
  induction l as [|x l IH]; simpl; [reflexivity|].
  now rewrite map_app, IH.
Qed.

Lemma flatten_shift t : forall k d,
  flatten (k + d) t = map (indent_by k) (flatten d t).
Proof.
  induction t as [label children IH] using outline_nested_ind.
  intros k d. cbn [flatten map]. f_equal.
  - unfold indent_by. now rewrite repeat_add, append_assoc.
  - rewrite map_flat_map. induction IH as [|c cs Hc _ IHcs]; [reflexivity|].
    cbn [flat_map]. rewrite IHcs. f_equal.
    now rewrite <- Hc, Nat.add_succ_r.
Qed.

(** X4. Flattening a tree that is no deeper than the calls may nest, from
    depth [k], gives the lines of the flattening from depth 0, each moved
    [k] levels to the right; a list handed to the flattener comes back with
    these lines after those it held. *)
Theorem flattener_extends_and_shifts
    (room : nat) (node : value) (t : outline) (k : nat) (lines : list string) :
  tree_of node = Some t ->
  height t <= S room ->
  _walk_pretty room node k None = Ok (map (indent_by k) (flatten 0 t)) /\
  _walk_pretty room node k (Some lines)
  = Ok (lines ++ map (indent_by k) (flatten 0 t)).
Proof.
  intros Ht Hroom. rewrite <- (flatten_shift t k 0), Nat.add_0_r.
  split.
  - exact (_walk_pretty_flatten node t room k None Ht Hroom).
  - rewrite (_walk_pretty_flatten node t room k (Some lines) Ht Hroom).
    now rewrite or_new_some.
Qed.

Lemma flattener_extends_and_shifts_family :
  _walk_pretty 2 Sample.family 1 (Some ["Program"])
  = Ok ["Program"; "  root"; "    first"; "      grandchild"; "    second"].
Proof.
  refine (proj2 (flattener_extends_and_shifts 2 Sample.family Sample.family_tree 1
                   ["Program"] eq_refl _)).
  vm_compute. lia.
Defined.

(** X5. A node without [children] is a leaf, but a [children] field that
    is null, a boolean or a number makes the flattener raise [TypeError]. *)
Theorem children_not_iterable
    (room : nat) (fields : list (string * value)) (label : string) (indent : nat)
    (lines : option (list string)) :
  get_label (VDict fields) = Ok label ->
  (assoc "children" fields = None ->
   _walk_pretty room (VDict fields) indent lines
   = Ok (or_new lines ++ [PyStr.repeat "  " indent +:+ label])) /\
  (forall c, assoc "children" fields = Some c ->
             not_iterable c = true ->
             _walk_pretty room (VDict fields) indent lines = Raise TypeError).
Proof.
  intros Hlabel. split.
  - intros Hc. rewrite _walk_pretty_eq, Hlabel, bind_ok, dict_get_fields, Hc.
    reflexivity.
  - intros c Hc Hn.
    rewrite _walk_pretty_eq, Hlabel, bind_ok, dict_get_fields, Hc, bind_ok.
    destruct c; try discriminate; reflexivity.
Qed.

Lemma children_not_iterable_null :
  _walk_pretty 1000 (VDict [("children", VNone)]) 0 None = Raise TypeError.
Proof.
  exact (proj2 (children_not_iterable 1000 [("children", VNone)] "Unknown" 0 None
                  eq_refl)
           VNone eq_refl eq_refl).
Defined.

Lemma stray_child_stops room indent nodes :
  Forall (fun n => has_stray n = true ->
                   forall room' d lines,
                     returns (_walk_pretty room' n d lines) = false) nodes ->
  existsb has_stray nodes = true ->
  forall cur,
    returns
      (for_each
         (fun cur child =>
            r ← nested_call room child (S indent) (Some cur);
            mret (after_call cur r))
         nodes cur) = false.
Proof.
  induction 1 as [|n nodes Hn _ IH]; intros Hex cur; [discriminate|].
  cbn [existsb] in Hex. cbn [for_each].
  destruct (nested_call room n (S indent) (Some cur)) as [r|e] eqn:Hw; [|reflexivity].
  rewrite bind_ok. cbn.
  destruct (has_stray n) eqn:Hs.
  - destruct room as [|room']; [discriminate|]. cbn [nested_call] in Hw.
    specialize (Hn eq_refl room' (S indent) (Some cur)).
    rewrite Hw in Hn. discriminate.
  - apply IH, Hex.
Qed.

(** X6. The flattener gives no partial result: when an item that is not a
    mapping sits anywhere down the [children] lists, the call raises. *)
Theorem stray_item_raises (node : value) :
  has_stray node = true ->
  forall room indent lines, returns (_walk_pretty room node indent lines) = false.
Proof.
  induction node as [v Hv | fields IH] using value_node_ind;
    intros Hs room indent lines.
  - destruct v; try reflexivity. discriminate.
  - rewrite _walk_pretty_eq.
    destruct (get_label (VDict fields)) as [label|e]; [|reflexivity].
    rewrite bind_ok, dict_get_fields, bind_ok.
    cbn [has_stray] in Hs. rewrite lookup_with_assoc in Hs.
    destruct (assoc "children" fields) as [c|] eqn:Hc; [|discriminate].
    destruct c as [| | | | | nodes |]; try discriminate.
    cbn [py_iter]. rewrite bind_ok.
    apply stray_child_stops; [|exact Hs].
    exact (IH _ _ (assoc_In _ _ _ Hc)).
Qed.

Lemma stray_item_raises_sample :
  returns (_walk_pretty 1000 Sample.stray 0 None) = false.
Proof. exact (stray_item_raises Sample.stray eq_refl 1000 0 None). Defined.

(** ** The reshaper *)

Lemma section_tree title children kids :
  mapM tree_of children = Some kids ->
  tree_of (section title children) = Some (Node "Unknown" kids).
Proof.
  intros Hk. rewrite tree_of_eq. cbn. now rewrite Hk.
Qed.

Lemma leaf_tree var :
  dict_all (field "name" is_str) var = true ->
  tree_of (leaf_of var) = Some (Node (variable_label var) []).
Proof.
  intros Hvar. destruct (dict_all_inv _ _ Hvar) as [vf ->].
  unfold leaf_of, variable_label. cbn [field_at].
  destruct (assoc "name" vf) as [name|] eqn:Hname; [|reflexivity].
  pose proof (dict_all_assoc _ _ _ _ Hvar Hname) as Hs. rewrite field_same in Hs.
  destruct (is_str_inv _ Hs) as [s ->].
  rewrite tree_of_eq. unfold get_label. rewrite dict_get_fields. cbn.
  now destruct (String.eqb (PyStr.strip s) "").
Qed.

Lemma mapM_cons {A B} (f : A -> option B) x l :
  mapM f (x :: l) = (y ← f x; k ← mapM f l; mret (y :: k)).
Proof. reflexivity. Qed.

Lemma leaf_trees vars :
  forallb (dict_all (field "name" is_str)) vars = true ->
  mapM tree_of (map leaf_of vars)
  = Some (map (fun var => Node (variable_label var) []) vars).
Proof.
  induction vars as [|var vars IH]; intros Hall; [reflexivity|].
  apply andb_prop in Hall as [Hvar Hrest].
  cbn [map]. rewrite mapM_cons, (leaf_tree var Hvar), (IH Hrest). reflexivity.
Qed.

Lemma valid_nodes_trees nodes :
  forallb valid_node nodes = true -> exists kids, mapM tree_of nodes = Some kids.
Proof.
  intros Hall. apply mapM_tree_of_returns; [|exact Hall].
  apply List.Forall_forall. intros n _. apply tree_of_returns.
Qed.

Lemma flatten_leaves (label : value -> string) depth vars :
  flat_map (flatten depth) (map (fun var => Node (label var) []) vars)
  = map (fun var => PyStr.repeat "  " depth +:+ label var) vars.
Proof.
  induction vars as [|var vars IH]; [reflexivity|].
  cbn. now rewrite IH.
Qed.

(** X7. The outline of a valid document whose tree is no deeper than the
    calls of the flattener may nest: the root line and the two section
    lines read [Unknown]; between the section lines there is one line per
    declared variable, two levels deep, with the trimmed name of the
    variable ([<anon>] without a name, [Unknown] for a blank name); after
    them come the lines of the main program, two levels deep. *)
Theorem outline_lines_shape (room : nat) (data : value) :
  valid_document data = true ->
  node_height (outline_of data) <= S room ->
  exists body,
    mapM tree_of (main_program_body data) = Some body /\
    outline_lines room data =
      Ok ("Unknown"
            :: "  Unknown"
            :: map (fun var => "    " +:+ variable_label var) (declared_variables data)
            ++ "  Unknown"
            :: flat_map (flatten 2) body).
Proof.
  intros Hd Hroom.
  destruct (valid_nodes_trees _ (main_program_body_valid data Hd)) as [body Hbody].
  exists body. split; [exact Hbody|].
  unfold outline_lines. rewrite (outline_tree_valid data Hd), bind_ok.
  assert (Hvars : forallb (dict_all (field "name" is_str)) (declared_variables data) = true).
  { unfold declared_variables.
    destruct (document_program data Hd) as (p & _ & Hp & ->).
    apply (program_declarations p Hp). }
  fold (outline_of data).
  assert (Htree : tree_of (outline_of data)
                  = Some (Node "Unknown"
                            [Node "Unknown"
                               (map (fun var => Node (variable_label var) [])
                                  (declared_variables data));
                             Node "Unknown" body])).
  { unfold outline_of. apply section_tree. cbn [mapM].
    rewrite (section_tree _ _ _ (leaf_trees _ Hvars)).
    rewrite (section_tree _ _ _ Hbody). reflexivity. }
  rewrite (_walk_pretty_flatten _ _ room 0 None Htree)
    by (rewrite (tree_height _ _ Htree); exact Hroom).
  cbn [or_new app flatten flat_map]. rewrite flatten_leaves, app_nil_r.
  reflexivity.
Qed.

Lemma outline_lines_shape_sample :
  outline_lines 1000 Sample.two_containers
  = Ok ["Unknown"; "  Unknown"; "    speed"; "    <anon>"; "    Unknown";
        "  Unknown"; "    main"].
Proof.
  assert (Hroom : node_height (outline_of Sample.two_containers) <= 1001)
    by (vm_compute; lia).
  destruct (outline_lines_shape 1000 Sample.two_containers eq_refl Hroom)
    as (body & Hbody & Hlines).
  injection Hbody as <-. exact Hlines.
Defined.

Lemma find_first {A} (f : A -> bool) pre x post :
  forallb (fun y => negb (f y)) pre = true ->
  f x = true ->
  List.find f (pre ++ x :: post) = Some x.
Proof.
  intros Hpre Hx. induction pre as [|y pre IH]; cbn.
  - now rewrite Hx.
  - cbn in Hpre. apply andb_prop in Hpre as [Hy Hpre].
    apply negb_true_iff in Hy. rewrite Hy. now apply IH.
Qed.

(** X8. Of several functions containers only the first counts, and of its
    children only the first: the Robot Program section holds the children
    of the first child of the first container, whatever comes after. *)
Theorem first_container_only (data : value) (pre post : list value) (c : value) :
  valid_document data = true ->
  items_at ["program"; "programContent"; "children"] data = pre ++ c :: post ->
  forallb (fun n => negb (is_functions_container n)) pre = true ->
  is_functions_container c = true ->
  outline_tree data =
    Ok (section "Program"
          [section "Variables Setup" (map leaf_of (declared_variables data));
           section "Robot Program"
             match items_at ["children"] c with
             | first :: _ => items_at ["children"] first
             | [] => []
             end]).
Proof.
  intros Hd Hitems Hpre Hc. rewrite (outline_tree_valid data Hd).
  unfold main_program_body. now rewrite Hitems, (find_first _ _ _ _ Hpre Hc).
Qed.

Lemma first_container_only_sample :
  outline_tree Sample.two_containers =
    Ok (section "Program"
          [section "Variables Setup"
             [VDict [("programLabel", VStr " speed ")];
              VDict [("programLabel", VStr "<anon>")];
              VDict [("programLabel", VStr "")]];
           section "Robot Program" [Sample.labelled "main" []]]).
Proof.
  exact (first_container_only Sample.two_containers
           [Sample.typed "ur-move"]
           [VDict [("contributedNode", VDict [("type", VStr "ur-functions")]);
                   ("children", VList [Sample.body_of "late"])]]
           (VDict [("contributedNode", VDict [("type", VStr "ur-functions")]);
                   ("children", VList [Sample.body_of "main"; Sample.body_of "other"])])
           eq_refl eq_refl eq_refl eq_refl).
Defined.

Lemma container_found c :
  is_functions_container c = true ->
  exists fields cf,
    c = VDict fields /\
    assoc "contributedNode" fields = Some (VDict cf) /\
    assoc "type" cf = Some (VStr "ur-functions").
Proof.
  unfold is_functions_container. destruct c as [| | | | | |fields]; try discriminate.
  cbn [field_at].
  destruct (assoc "contributedNode" fields) as [cn|] eqn:Hcn; [|discriminate].
  destruct cn as [| | | | | |cf]; try discriminate.
  cbn [field_at].
  destruct (assoc "type" cf) as [t|] eqn:Ht; [|discriminate].
  destruct t; try discriminate. cbn.
  intros E. apply String.eqb_eq in E as ->.
  exists fields, cf. auto.
Qed.

(** X9. The search for the functions container stops at the first one: the
    nodes after it are not examined, so the search gives the same result,
    or raises the same exception, whatever they are. *)
Theorem nodes_after_container_unread (pre post post' : list value) (c : value) :
  is_functions_container c = true ->
  first_functions (pre ++ c :: post) = first_functions (pre ++ c :: post').
Proof.
  intros Hc. destruct (container_found c Hc) as (fields & cf & -> & Hcn & Ht).
  induction pre as [|n pre IH]; cbn [app first_functions].
  - rewrite !dict_get_fields, Hcn, !bind_ok.
    rewrite !dict_get_fields, Ht, !bind_ok. reflexivity.
  - destruct (dict_get n "contributedNode" (VDict [])) as [cn|e]; [|reflexivity].
    rewrite !bind_ok.
    destruct (dict_get cn "type" VNone) as [t|e]; [|reflexivity].
    rewrite !bind_ok. destruct (eq_str t "ur-functions"); [reflexivity | exact IH].
Qed.

Lemma nodes_after_container_unread_sample :
  first_functions
    [Sample.typed "ur-move";
     VDict [("contributedNode", VDict [("type", VStr "ur-functions")])];
     VInt 3]
  = Ok (VList []).
Proof.
  exact (nodes_after_container_unread [Sample.typed "ur-move"] [VInt 3] []
           (VDict [("contributedNode", VDict [("type", VStr "ur-functions")])]) eq_refl).
Defined.

(** ** The script emitter *)

(** X10. Whenever the emitter returns, on any document, the first line is
    the [def] header with the name of the document, or the stem when it
    has none, the second the hidden variable line, and the further lines
    are the lines of the script of the document, each behind the two-space
    indent: two lines more than the script has. *)
Theorem script_lines_indented (data : value) (stem : string) (lines : list string) :
  script_lines data stem = Ok lines ->
  lines = ("def " +:+ function_name data stem +:+ "():")
            :: hidden_variable_line
            :: map (fun ln => "  " +:+ ln) (PyStr.splitlines (script_body data)) /\
  length lines = 2 + length (PyStr.splitlines (script_body data)).
Proof.
  intros Hlines.
  enough (lines = ("def " +:+ function_name data stem +:+ "():")
                    :: hidden_variable_line
                    :: map (fun ln => "  " +:+ ln)
                         (PyStr.splitlines (script_body data))) as ->
    by (split; [reflexivity | cbn; now rewrite length_map]).
  revert Hlines. unfold script_lines, function_name, script_body.
  destruct data as [| | | | | |df]; try discriminate.
  cbn [field_at]. repeat (rewrite dict_get_fields || rewrite bind_ok).
  destruct (assoc "application" df) as [a|];
    [|cbn; now intros [= <-]].
  destruct a as [| | | | | |af]; try discriminate.
  cbn [field_at]. repeat (rewrite dict_get_fields || rewrite bind_ok).
  destruct (assoc "applicationInfo" af) as [info|].
  - destruct info as [| | | | | |nf]; try discriminate.
    cbn [field_at]. repeat (rewrite dict_get_fields || rewrite bind_ok).
    destruct (assoc "urscript" af) as [holder|].
    + destruct holder as [| | | | | |hf]; try discriminate.
      cbn [field_at]. repeat (rewrite dict_get_fields || rewrite bind_ok).
      destruct (assoc "script" hf) as [script|].
      * destruct script; try discriminate.
        destruct (assoc "name" nf); now intros [= <-].
      * destruct (assoc "name" nf); now intros [= <-].
    + repeat (rewrite dict_get_fields || rewrite bind_ok).
      destruct (assoc "name" nf); now intros [= <-].
  - repeat (rewrite dict_get_fields || rewrite bind_ok).
    destruct (assoc "urscript" af) as [holder|].
    + destruct holder as [| | | | | |hf]; try discriminate.
      cbn [field_at]. repeat (rewrite dict_get_fields || rewrite bind_ok).
      destruct (assoc "script" hf) as [script|].
      * destruct script; try discriminate. now intros [= <-].
      * now intros [= <-].
    + repeat (rewrite dict_get_fields || rewrite bind_ok). now intros [= <-].
Qed.

Lemma script_lines_indented_pick :
  ["def Pick():"; "  global _hidden_verificationVariable = 0";
   "  move_j(p1)"; "  move_j(p2)"]
  = ("def " +:+ function_name Sample.pick "cell" +:+ "():")
      :: hidden_variable_line
      :: map (fun ln => "  " +:+ ln) (PyStr.splitlines (script_body Sample.pick)) /\
  4 = 2 + length (PyStr.splitlines (script_body Sample.pick)).
Proof. exact (script_lines_indented Sample.pick "cell" _ eq_refl). Defined.

(** X11. A [script] field that is present but is not a string (null, a
    number, a list) makes the emitter raise [AttributeError]; no file is
    written. *)
Theorem script_not_text
    (data : value) (stem : string) (dst_dir : path) (fs : filesystem) (v : value) :
  field_at ["application"; "urscript"; "script"] data = Some v ->
  is_str v = false ->
  urpx_to_script data stem dst_dir fs = (Raise AttributeError, fs).
Proof.
  intros Hv Hs. unfold urpx_to_script.
  enough (script_lines data stem = Raise AttributeError) as -> by reflexivity.
  unfold script_lines.
  destruct data as [| | | | | |df]; try discriminate. cbn [field_at] in Hv.
  rewrite !dict_get_fields, !bind_ok.
  destruct (assoc "application" df) as [a|]; [|discriminate].
  destruct a as [| | | | | |af]; try discriminate. cbn [field_at] in Hv.
  rewrite dict_get_fields, bind_ok.
  assert (Hname : (exists name,
                      dict_get match assoc "applicationInfo" af with
                               | Some info => info
                               | None => VDict []
                               end "name" (VStr stem) = Ok name) \/
                  dict_get match assoc "applicationInfo" af with
                           | Some info => info
                           | None => VDict []
                           end "name" (VStr stem) = Raise AttributeError).
  { destruct (assoc "applicationInfo" af) as [[]|]; cbn; eauto. }
  destruct Hname as [[name ->] | ->]; [|reflexivity].
  rewrite !bind_ok, dict_get_fields, bind_ok.
  destruct (assoc "urscript" af) as [h|]; [|discriminate].
  destruct h as [| | | | | |hf]; try discriminate. cbn [field_at] in Hv.
  rewrite dict_get_fields, bind_ok.
  destruct (assoc "script" hf) as [w|]; [|discriminate].
  injection Hv as ->. destruct v; try reflexivity. discriminate.
Qed.

Lemma script_not_text_null :
  urpx_to_script Sample.null_script "cell" Sample.out_dir Sample.disk
  = (Raise AttributeError, Sample.disk).
Proof.
  exact (script_not_text Sample.null_script "cell" Sample.out_dir Sample.disk VNone
           eq_refl eq_refl).
Defined.

(** ** The conversion job *)

(** What a successful job leaves: one file, in the destination directory,
    named after the stem of the source and the mode. *)
Lemma run_ok_shape
    (json_loads : string -> option value) (room : nat) (job : Job.t)
    (fs fs1 : filesystem) (out : path) :
  Job.run json_loads room job fs = (Ok out, fs1) ->
  out = Path.child (Job.dst job) (output_name (Path.stem (Job.src job)) (Job.mode job)) /\
  exists text, fs1 = <[out := File text]> fs.
Proof.
  intros Hrun.
  destruct (run_ok_parsed _ _ _ _ _ _ Hrun) as (text & data & Hsrc & Hdata).
  rewrite (run_parsed _ _ _ _ _ _ Hsrc Hdata) in Hrun. unfold output_name.
  destruct (String.eqb (Job.mode job) "script").
  - rewrite urpx_to_script_write in Hrun.
    destruct (write_lines_ok _ _ _ _ _ _ Hrun) as (Hout & (ls & _ & Hfs) & _). eauto.
  - rewrite urpx_to_txt_write in Hrun.
    destruct (write_lines_ok _ _ _ _ _ _ Hrun) as (Hout & (ls & _ & Hfs) & _). eauto.
Qed.

Lemma output_not_source (src dst : path) (mode : string) :
  Path.child dst (output_name (Path.stem src) mode) <> src.
Proof.
  unfold output_name. destruct (String.eqb mode "script"); apply child_not_source.
Qed.



(** X13. A job that succeeds changes one path only, its output file: every
    other path, the source file among them, holds what it held. *)
Theorem successful_job_frame
    (json_loads : string -> option value) (room : nat) (job : Job.t)
    (fs fs1 : filesystem) (out : path) :
  Job.run json_loads room job fs = (Ok out, fs1) ->
  (forall p : path, p <> out -> fs1 !! p = fs !! p) /\
  fs1 !! Job.src job = fs !! Job.src job.
Proof.
  intros Hrun. destruct (run_ok_shape _ _ _ _ _ _ Hrun) as (Hout & text & Hfs).
  assert (Hframe : forall p : path, p <> out -> fs1 !! p = fs !! p).
  { intros p Hp. rewrite Hfs. now apply lookup_insert_ne. }
  split; [exact Hframe|]. apply Hframe. rewrite Hout.
  intros Heq. symmetry in Heq. exact (output_not_source _ _ _ Heq).
Qed.

Lemma successful_job_frame_sample :
  (<[["out"; "cell_converted.txt"] :=
       File ("Unknown" +:+ LF +:+ "  Unknown" +:+ LF +:+ "  Unknown")]> Sample.disk)
    !! Sample.source
  = Sample.disk !! Sample.source.
Proof.
  exact (proj2 (successful_job_frame Sample.loads 1000
                  (Job.make Sample.source Sample.out_dir "txt") Sample.disk _ _ eq_refl)).
Defined.

(** X14. A source whose text is valid JSON but not an object (a list, a
    string, a number, null) makes the job raise [AttributeError] in either
    mode, and nothing is written. *)
Theorem top_level_not_object
    (json_loads : string -> option value) (room : nat) (job : Job.t)
    (fs : filesystem) (text : string) (data : value) :
  fs !! Job.src job = Some (File text) ->
  json_loads text = Some data ->
  is_dict data = false ->
  Job.run json_loads room job fs = (Raise AttributeError, fs).
Proof.
  intros Hsrc Hdata Hd. rewrite (run_parsed _ _ _ _ _ _ Hsrc Hdata).
  destruct data; try discriminate; destruct (String.eqb _ _); reflexivity.
Qed.

Lemma top_level_not_object_list :
  Job.run Sample.loads_more 1000 (Job.make Sample.listing Sample.out_dir "script")
    Sample.disk_with_list
  = (Raise AttributeError, Sample.disk_with_list).
Proof.
  exact (top_level_not_object Sample.loads_more 1000
           (Job.make Sample.listing Sample.out_dir "script") Sample.disk_with_list
           "[]" (VList []) eq_refl eq_refl eq_refl).
Defined.

Lemma length_append (a b : string) :
  String.length (a +:+ b) = String.length a + String.length b.
Proof.
  induction a as [|x a IH]; [reflexivity|].
  change (S (String.length (a +:+ b)) = S (String.length a + String.length b)).
  now rewrite IH.
Qed.

Lemma append_cancel_r (a b c : string) : a +:+ c = b +:+ c -> a = b.
Proof.
  revert b. induction a as [|x a IH]; intros [|y b] H.
  - reflexivity.
  - apply (f_equal String.length) in H. rewrite !length_append in H.
    cbn in H. lia.
  - apply (f_equal String.length) in H. rewrite !length_append in H.
    cbn in H. lia.
  - injection H as -> H. f_equal. now apply IH.
Qed.

Lemma child_inj (p : path) (a b : string) : Path.child p a = Path.child p b -> a = b.
Proof.
  unfold Path.child. intros H. apply app_inv_head in H. now injection H.
Qed.

(** X15. The two modes write different files: when a job in [script] mode
    and then the same job in [txt] mode succeed, both output files are
    there at the end, the second run having left the first file alone. *)
Theorem modes_write_apart
    (json_loads : string -> option value) (room : nat) (src dst : path)
    (fs fs1 fs2 : filesystem) (out1 out2 : path) :
  Job.run json_loads room (Job.make src dst "script") fs = (Ok out1, fs1) ->
  Job.run json_loads room (Job.make src dst "txt") fs1 = (Ok out2, fs2) ->
  out1 <> out2 /\
  fs2 !! out1 = fs1 !! out1 /\
  exists script outline,
    fs2 !! out1 = Some (File script) /\ fs2 !! out2 = Some (File outline).
Proof.
  intros H1 H2.
  destruct (run_ok_shape _ _ _ _ _ _ H1) as (Ho1 & t1 & Hf1).
  destruct (run_ok_shape _ _ _ _ _ _ H2) as (Ho2 & t2 & Hf2).
  cbn in Ho1, Ho2.
  assert (Hne : out1 <> out2).
  { rewrite Ho1, Ho2. intros Heq. apply child_inj, append_cancel in Heq.
    discriminate. }
  assert (Hkept : fs2 !! out1 = fs1 !! out1).
  { rewrite Hf2. apply lookup_insert_ne. congruence. }
  split; [exact Hne|]. split; [exact Hkept|].
  exists t1, t2. split.
  - rewrite Hkept, Hf1. apply lookup_insert_eq.
  - rewrite Hf2. apply lookup_insert_eq.
Qed.

Lemma modes_write_apart_sample :
  ["out"; "cell_converted.script"] <> ["out"; "cell_converted.txt"].
Proof.
  exact (proj1 (modes_write_apart Sample.loads 1000 Sample.source Sample.out_dir
                  Sample.disk _ _ _ _ eq_refl eq_refl)).
Defined.

(** X16. Two jobs with the same destination and mode write the same file
    exactly when their sources have the same stem: sources that differ by
    their directory or their suffix only share one output file. *)
Theorem outputs_collide_on_stem
    (json_loads : string -> option value) (room : nat) (src1 src2 dst : path)
    (mode : string) (fs fs1 fs' fs2 : filesystem) (out1 out2 : path) :
  Job.run json_loads room (Job.make src1 dst mode) fs = (Ok out1, fs1) ->
  Job.run json_loads room (Job.make src2 dst mode) fs' = (Ok out2, fs2) ->
  (out1 = out2 <-> Path.stem src1 = Path.stem src2).
Proof.
  intros H1 H2.
  destruct (run_ok_shape _ _ _ _ _ _ H1) as (-> & _).
  destruct (run_ok_shape _ _ _ _ _ _ H2) as (-> & _).
  cbn [Job.src Job.dst Job.mode]. unfold output_name. split.
  - intros Heq. apply child_inj in Heq. now apply append_cancel_r in Heq.
  - now intros ->.
Qed.

Lemma outputs_collide_on_stem_twin :
  ["out"; "cell_converted.txt"] = ["out"; "cell_converted.txt"]
  <-> Path.stem Sample.source = Path.stem Sample.twin.
Proof.
  exact (outputs_collide_on_stem Sample.loads 1000 Sample.source Sample.twin Sample.out_dir
           "txt" Sample.disk_with_twin _ Sample.disk_with_twin _ _ _ eq_refl eq_refl).
Defined.

(** ** The list of files *)

Lemma even_mod n : Nat.eqb (n mod 2) 0 = Nat.even n.
Proof.
  pose proof (Nat.div_mod_eq n 2) as Hn.
  pose proof (Nat.mod_upper_bound n 2 ltac:(lia)) as Hlt.
  destruct (Nat.even n) eqn:E.
  - apply Nat.even_spec in E as [m Hm]. apply Nat.eqb_eq. lia.
  - apply Nat.eqb_neq. intros H0.
    assert (Nat.even n = true) as E'; [|congruence].
    apply Nat.even_spec. exists (n / 2). lia.
Qed.

Lemma stripe_tag n :
  (if negb (Nat.eqb (S n mod 2) 0) then "odd" else "even") = stripe n.
Proof.
  unfold stripe. rewrite even_mod, Nat.even_succ, <- Nat.negb_even, negb_involutive.
  reflexivity.
Qed.

Lemma consistent_spec (st : App.state) :
  consistent st = true <->
  map App.iid (App.rows st) = App.files st /\
  map App.text (App.rows st) = map Path.name (App.files st) /\
  map App.tag (App.rows st) = map stripe (seq 0 (length (App.rows st))) /\
  NoDup (App.files st) /\
  forallb App.is_urpx (App.files st) = true.
Proof.
  unfold consistent. rewrite !andb_true_iff, !bool_decide_eq_true. tauto.
Qed.

Lemma tree_insert_new (rs : list App.row) (r : App.row) :
  App.iid r ∉ map App.iid rs -> App.tree_insert rs r = Some (rs ++ [r]).
Proof.
  intros Hnew. unfold App.tree_insert.
  destruct (existsb _ rs) eqn:E; [|reflexivity].
  apply existsb_exists in E as (r' & Hin & Heq).
  apply bool_decide_eq_true in Heq. exfalso. apply Hnew.
  rewrite <- Heq. apply list_elem_of_In, in_map, Hin.
Qed.

Section Files.
Variable to_path : string -> path.

Lemma add_file_cases (st : App.state) (p : string) :
  consistent st = true ->
  (App.add_file to_path st p = Some st /\
   (App.is_urpx (to_path p) = false \/ to_path p ∈ App.files st)) \/
  (exists r,
      App.add_file to_path st p
      = Some (App.make_state (App.files st ++ [to_path p]) (App.rows st ++ [r])
                (App.output_dir st) (App.mode st)) /\
      r = App.make_row (to_path p) (Path.name (to_path p)) (stripe (length (App.rows st))) /\
      App.is_urpx (to_path p) = true /\
      to_path p ∉ App.files st).
Proof.
  intros Hc. apply consistent_spec in Hc as (Hiid & _ & _ & _ & _).
  unfold App.add_file.
  destruct (App.is_urpx (to_path p)) eqn:Hu; cbn [negb orb]; [|left; auto].
  destruct (bool_decide (to_path p ∈ App.files st)) eqn:Hin.
  - apply bool_decide_eq_true in Hin. left; auto.
  - apply bool_decide_eq_false in Hin. right.
    rewrite tree_insert_new by (cbn; now rewrite Hiid).
    eexists. split; [reflexivity|]. split; [|auto].
    rewrite length_app, Nat.add_comm. cbn [length Nat.add].
    rewrite stripe_tag. f_equal.
    now rewrite <- Hiid, length_map.
Qed.

Lemma add_file_consistent (st st' : App.state) (p : string) :
  consistent st = true ->
  App.add_file to_path st p = Some st' ->
  consistent st' = true.
Proof.
  intros Hc Hadd.
  destruct (add_file_cases st p Hc) as [[Hsame _] | (r & Hnew & Hr & Hu & Hin)].
  - congruence.
  - rewrite Hnew in Hadd. injection Hadd as <-.
    apply consistent_spec in Hc as (Hiid & Htext & Htag & Hnd & Hall).
    apply consistent_spec. cbn [App.files App.rows]. subst r.
    rewrite !map_app, length_app, seq_app, map_app. cbn.
    rewrite Hiid, Htext, Htag. repeat split.
    + apply NoDup_app. split; [exact Hnd|]. split; [|apply NoDup_singleton].
      intros x Hx Hx'. apply list_elem_of_singleton in Hx'. now subst x.
    + rewrite forallb_app, Hall. cbn. now rewrite Hu.
Qed.

(** X17. Adding files keeps the window consistent and is never refused by
    the list widget: from a consistent window, [_add_files] returns, and
    the window it leaves has one row per file, in order, with the name of
    the file and the tag of its position ([odd] first, then alternating), no
    file twice, and only files with the suffix [.urpx]. *)
Theorem add_files_consistent (st : App.state) (paths : list string) :
  consistent st = true ->
  exists st', App._add_files to_path st paths = Some st' /\ consistent st' = true.
Proof.
  revert st. induction paths as [|p rest IH]; intros st Hc; cbn [App._add_files].
  - eauto.
  - destruct (add_file_cases st p Hc) as [[Hsame _] | (r & Hnew & _)].
    + rewrite Hsame. now apply IH.
    + rewrite Hnew. apply IH.
      exact (add_file_consistent st _ p Hc Hnew).
Qed.
End Files.

Lemma add_files_consistent_dropped :
  exists st',
    App._add_files Sample.to_path App.initial Sample.dropped = Some st' /\
    consistent st' = true.
Proof. exact (add_files_consistent Sample.to_path App.initial Sample.dropped eq_refl). Defined.

Section MoreFiles.
Variable to_path : string -> path.

Lemma add_file_grows (st st' : App.state) (p : string) :
  App.add_file to_path st p = Some st' ->
  App.output_dir st' = App.output_dir st /\
  App.mode st' = App.mode st /\
  ((App.files st' = App.files st /\
    (App.is_urpx (to_path p) = false \/ to_path p ∈ App.files st)) \/
   (App.files st' = App.files st ++ [to_path p] /\
    App.is_urpx (to_path p) = true)).
Proof.
  unfold App.add_file.
  destruct (App.is_urpx (to_path p)) eqn:Hu; cbn [negb orb].
  - destruct (bool_decide (to_path p ∈ App.files st)) eqn:Hin.
    + apply bool_decide_eq_true in Hin. intros [= <-]. auto 6.
    + destruct (App.tree_insert _ _); [|discriminate].
      intros [= <-]. cbn. auto 6.
  - intros [= <-]. auto 6.
Qed.

Lemma add_file_skips (st : App.state) (p : string) :
  (App.is_urpx (to_path p) = true -> to_path p ∈ App.files st) ->
  App.add_file to_path st p = Some st.
Proof.
  intros Hin. unfold App.add_file.
  destruct (App.is_urpx (to_path p)); cbn [negb orb]; [|reflexivity].
  now rewrite (bool_decide_eq_true_2 _ (Hin eq_refl)).
Qed.

(** X18. What [_add_files] leaves: the files that were there, in their
    order, then new ones; a path is in the list afterwards exactly when it
    was there before or is one of the given paths with the suffix [.urpx]
    (in any case); the output directory and the mode are not touched. *)
Theorem add_files_members (paths : list string) (st st' : App.state) :
  App._add_files to_path st paths = Some st' ->
  (exists new, App.files st' = App.files st ++ new) /\
  (forall path : path,
      path ∈ App.files st' <->
      path ∈ App.files st \/
      (App.is_urpx path = true /\ exists p, p ∈ paths /\ to_path p = path)) /\
  App.output_dir st' = App.output_dir st /\
  App.mode st' = App.mode st.
Proof.
  revert st. induction paths as [|p rest IH]; intros st Hadd; cbn [App._add_files] in Hadd.
  - injection Hadd as <-. split; [exists []; now rewrite app_nil_r|].
    split; [|auto]. intros path. split; [auto|].
    intros [H | (_ & q & Hq & _)]; [exact H | now apply not_elem_of_nil in Hq].
  - destruct (App.add_file to_path st p) as [st1|] eqn:H1; [|discriminate].
    destruct (add_file_grows st st1 p H1) as (Ho & Hm & Hfiles).
    destruct (IH st1 Hadd) as ((new & Hnew) & Hmem & Ho' & Hm').
    split; [|split; [|split; congruence]].
    + destruct Hfiles as [[Hf _] | [Hf _]]; rewrite Hf in Hnew.
      * eauto.
      * rewrite <- app_assoc in Hnew. eauto.
    + intros path. rewrite Hmem. split.
      * intros [Hin | (Hu & q & Hq & Heq)].
        -- destruct Hfiles as [[Hf _] | [Hf Hu]]; rewrite Hf in Hin; [auto|].
           apply elem_of_app in Hin as [Hin | Hin]; [auto|].
           apply list_elem_of_singleton in Hin. subst path.
           right. split; [exact Hu|]. exists p. split; [left | reflexivity].
        -- right. split; [exact Hu|]. exists q. split; [now right | exact Heq].
      * intros [Hin | (Hu & q & Hq & Heq)].
        -- left. destruct Hfiles as [[Hf _] | [Hf _]]; rewrite Hf; [exact Hin|].
           apply elem_of_app. now left.
        -- apply elem_of_cons in Hq as [-> | Hq].
           ++ left. subst path.
              destruct Hfiles as [[Hf [Hno | Hin]] | [Hf _]]; rewrite Hf.
              ** congruence.
              ** exact Hin.
              ** apply elem_of_app. right. now left.
           ++ right. eauto.
Qed.

Lemma add_files_skips (paths : list string) (st : App.state) :
  (forall p, p ∈ paths -> App.is_urpx (to_path p) = true -> to_path p ∈ App.files st) ->
  App._add_files to_path st paths = Some st.
Proof.
  induction paths as [|p rest IH]; intros Hall; cbn [App._add_files]; [reflexivity|].
  rewrite add_file_skips by (apply Hall; now left).
  apply IH. intros q Hq. apply Hall. now right.
Qed.

(** X19. Adding the same paths a second time changes nothing: no file is
    listed twice and no row is added. *)
Theorem add_files_again (paths : list string) (st st' : App.state) :
  App._add_files to_path st paths = Some st' ->
  App._add_files to_path st' paths = Some st'.
Proof.
  intros Hadd. destruct (add_files_members paths st st' Hadd) as (_ & Hmem & _).
  apply add_files_skips. intros p Hp Hu. apply Hmem. right. eauto.
Qed.
End MoreFiles.

Lemma add_files_members_dropped :
  App._add_files Sample.to_path App.initial Sample.dropped
  = Some (App.make_state
            [["in"; "cell.urpx"]; ["in"; "CELL2.URPX"]]
            [App.make_row ["in"; "cell.urpx"] "cell.urpx" "odd";
             App.make_row ["in"; "CELL2.URPX"] "CELL2.URPX" "even"]
            None "script") /\
  exists new, [["in"; "cell.urpx"]; ["in"; "CELL2.URPX"]] = [] ++ new.
Proof.
  split; [reflexivity|].
  exact (proj1 (add_files_members Sample.to_path Sample.dropped App.initial _ eq_refl)).
Defined.

Lemma add_files_again_dropped :
  App._add_files Sample.to_path
    (App.make_state
       [["in"; "cell.urpx"]; ["in"; "CELL2.URPX"]]
       [App.make_row ["in"; "cell.urpx"] "cell.urpx" "odd";
        App.make_row ["in"; "CELL2.URPX"] "CELL2.URPX" "even"]
       None "script")
    Sample.dropped
  = Some (App.make_state
            [["in"; "cell.urpx"]; ["in"; "CELL2.URPX"]]
            [App.make_row ["in"; "cell.urpx"] "cell.urpx" "odd";
             App.make_row ["in"; "CELL2.URPX"] "CELL2.URPX" "even"]
            None "script").
Proof.
  exact (add_files_again Sample.to_path Sample.dropped App.initial _ eq_refl).
Defined.

(** ** The batch *)

Section Batch.
Variable json_loads : string -> option value.
Variable room : nat.

(** One turn of the loop: the progress moves by one; either the job wrote
    its file and its name goes to [done], or it raised and a line goes to
    [errors], with nothing written or the output file left empty. *)
Lemma convert_one_cases (out : path) (mode : string) (t t' : App.tally) (fp : path)
    (fs fs' : filesystem) :
  App.convert_one json_loads room out mode t fp fs = (t', fs') ->
  App.value t' = S (App.value t) /\
  ((App.errors t' = App.errors t /\
    App.done t' = App.done t ++ [output_name (Path.stem fp) mode] /\
    exists text,
      fs' = <[Path.child out (output_name (Path.stem fp) mode) := File text]> fs) \/
   (App.done t' = App.done t /\
    (exists e, App.errors t' = App.errors t ++ [(Path.name fp, e)]) /\
    (fs' = fs \/
     fs' = <[Path.child out (output_name (Path.stem fp) mode) := File EmptyString]> fs))).
Proof.
  unfold App.convert_one.
  destruct (Job.run json_loads room (Job.make fp out mode) fs) as [[res|e] fs1] eqn:Hrun;
    intros [= <- <-]; (split; [reflexivity|]).
  - left. destruct (run_ok_shape _ _ _ _ _ _ Hrun) as (Hres & text & Hfs).
    cbn [Job.src Job.dst Job.mode] in Hres. cbn. repeat split.
    + rewrite Hres. unfold Path.name, Path.child. now rewrite last_last.
    + exists text. now rewrite <- Hres.
  - right. cbn. repeat split; [eauto|].
    destruct (run_raise_keeps_files _ _ _ _ _ _ Hrun) as [->|[_ ->]];
      [now left | now right].
Qed.

Lemma convert_loop_cons (out : path) (mode : string) (fp : path) (fps : list path)
    (t : App.tally) (fs : filesystem) :
  App.convert_loop json_loads room out mode (fp :: fps) t fs =
  App.convert_loop json_loads room out mode fps
    (fst (App.convert_one json_loads room out mode t fp fs))
    (snd (App.convert_one json_loads room out mode t fp fs)).
Proof.
  cbn [App.convert_loop]. now destruct (App.convert_one json_loads room out mode t fp fs).
Qed.

Lemma convert_loop_tally (out : path) (mode : string) (fps : list path) :
  forall (t t' : App.tally) (fs fs' : filesystem),
    App.convert_loop json_loads room out mode fps t fs = (t', fs') ->
    length (App.errors t') + length (App.done t')
    = length (App.errors t) + length (App.done t) + length fps /\
    App.value t' = App.value t + length fps /\
    (exists es, App.errors t' = App.errors t ++ es /\
                sublist (map fst es) (map Path.name fps)).
Proof.
  induction fps as [|fp fps IH]; intros t t' fs fs' Hloop.
  - injection Hloop as <- <-. cbn. repeat split; try lia.
    exists []. now rewrite app_nil_r.
  - rewrite convert_loop_cons in Hloop.
    destruct (App.convert_one json_loads room out mode t fp fs) as [t1 fs1] eqn:H1.
    cbn [fst snd] in Hloop.
    destruct (IH _ _ _ _ Hloop) as (Hlen & Hval & es & Hes & Hsub).
    destruct (convert_one_cases _ _ _ _ _ _ _ H1) as (Hv & [(He & Hd & _) | (Hd & (e & He) & _)]).
    + rewrite He, Hd, length_app in *. cbn in *. repeat split; try lia.
      exists es. split; [exact Hes|]. now apply sublist_cons.
    + rewrite He, Hd, length_app in *. cbn in *. repeat split; try lia.
      exists ((Path.name fp, e) :: es). split; [now rewrite Hes, <- app_assoc|].
      cbn. now apply sublist_skip.
Qed.

(** The loop changes nothing but output files. *)
Lemma convert_loop_frame (out : path) (mode : string) (fps : list path) :
  forall (t t' : App.tally) (fs fs' : filesystem) (p : path),
    App.convert_loop json_loads room out mode fps t fs = (t', fs') ->
    (forall fp, fp ∈ fps -> p <> Path.child out (output_name (Path.stem fp) mode)) ->
    fs' !! p = fs !! p.
Proof.
  induction fps as [|fp fps IH]; intros t t' fs fs' p Hloop Hp.
  - now injection Hloop as <- <-.
  - rewrite convert_loop_cons in Hloop.
    destruct (App.convert_one json_loads room out mode t fp fs) as [t1 fs1] eqn:H1.
    cbn [fst snd] in Hloop.
    rewrite (IH _ _ _ _ p Hloop) by (intros fp' Hin; apply Hp; now right).
    destruct (convert_one_cases _ _ _ _ _ _ _ H1)
      as (_ & [(_ & _ & text & ->) | (_ & _ & [->| ->])]); [|reflexivity|];
      apply lookup_insert_ne; intros Heq; apply (Hp fp); (now left) || (now symmetry).
Qed.

(** A file that is there stays a file. *)
Lemma convert_loop_keeps_files (out : path) (mode : string) (fps : list path) :
  forall (t t' : App.tally) (fs fs' : filesystem) (p : path) (text : string),
    App.convert_loop json_loads room out mode fps t fs = (t', fs') ->
    fs !! p = Some (File text) ->
    exists text', fs' !! p = Some (File text').
Proof.
  induction fps as [|fp fps IH]; intros t t' fs fs' p text Hloop Hp.
  - injection Hloop as <- <-. eauto.
  - rewrite convert_loop_cons in Hloop.
    destruct (App.convert_one json_loads room out mode t fp fs) as [t1 fs1] eqn:H1.
    cbn [fst snd] in Hloop.
    assert (Hins : forall text1,
               exists text',
                 (<[Path.child out (output_name (Path.stem fp) mode) := File text1]> fs)
                   !! p = Some (File text')).
    { intros text1.
      destruct (decide (Path.child out (output_name (Path.stem fp) mode) = p))
        as [<-|Hne].
      - exists text1. apply lookup_insert_eq.
      - exists text. now rewrite lookup_insert_ne. }
    destruct (convert_one_cases _ _ _ _ _ _ _ H1)
      as (_ & [(_ & _ & text1 & ->) | (_ & _ & [->| ->])]).
    + destruct (Hins text1) as [text' Hp']. apply (IH _ _ _ _ _ _ Hloop Hp').
    + apply (IH _ _ _ _ _ _ Hloop Hp).
    + destruct (Hins EmptyString) as [text' Hp']. apply (IH _ _ _ _ _ _ Hloop Hp').
Qed.

(** Without an error line every job has written its file. *)
Lemma convert_loop_clean (out : path) (mode : string) (fps : list path) :
  forall (t t' : App.tally) (fs fs' : filesystem),
    App.convert_loop json_loads room out mode fps t fs = (t', fs') ->
    App.errors t' = [] ->
    App.done t' = App.done t ++ map (fun fp => output_name (Path.stem fp) mode) fps /\
    (forall fp, fp ∈ fps ->
       exists text, fs' !! Path.child out (output_name (Path.stem fp) mode) = Some (File text)).
Proof.
  induction fps as [|fp fps IH]; intros t t' fs fs' Hloop Hclean.
  - injection Hloop as <- <-. split; [now rewrite app_nil_r|].
    intros fp Hin. now apply not_elem_of_nil in Hin.
  - pose proof Hloop as Hloop0. rewrite convert_loop_cons in Hloop.
    destruct (App.convert_one json_loads room out mode t fp fs) as [t1 fs1] eqn:H1.
    cbn [fst snd] in Hloop.
    destruct (IH _ _ _ _ Hloop Hclean) as (Hdone & Hfiles).
    destruct (convert_loop_tally _ _ _ _ _ _ _ Hloop) as (_ & _ & es & Hes & _).
    destruct (convert_one_cases _ _ _ _ _ _ _ H1)
      as (_ & [(_ & Hd & text & Hfs) | (_ & (e & He) & _)]).
    + split; [now rewrite Hdone, Hd, <- app_assoc|].
      intros fp' Hin. apply elem_of_cons in Hin as [-> | Hin]; [|now apply Hfiles].
      apply (convert_loop_keeps_files _ _ _ _ _ _ _ _ text Hloop).
      rewrite Hfs. apply lookup_insert_eq.
    + rewrite Hes, He, <- app_assoc in Hclean.
      apply app_eq_nil in Hclean as [_ Hclean]. discriminate.
Qed.
End Batch.

Lemma rfind_append c (a b : string) i :
  PyStr.rfind c b = Some i ->
  PyStr.rfind c (a +:+ b) = Some (String.length a + i).
Proof.
  intros Hb. induction a as [|x a IH]; [exact Hb|].
  change (PyStr.rfind c (String x (a +:+ b)) = Some (S (String.length a + i))).
  cbn [PyStr.rfind]. now rewrite IH.
Qed.

Lemma drop_append (a b : string) i :
  PyStr.drop (String.length a + i) (a +:+ b) = PyStr.drop i b.
Proof. induction a as [|x a IH]; [reflexivity | exact IH]. Qed.

Lemma output_suffix (stem mode : string) :
  Path.suffix_of_name (output_name stem mode)
  = if String.eqb mode "script" then ".script" else ".txt".
Proof.
  unfold output_name, Path.suffix_of_name.
  destruct (String.eqb mode "script").
  - rewrite (rfind_append "." stem "_converted.script" 10 eq_refl).
    rewrite length_append, drop_append.
    replace ((0 <? String.length stem + 10)
             && (String.length stem + 10
                 <? String.length stem + String.length "_converted.script" - 1))
      with true; [reflexivity|].
    symmetry. apply andb_true_iff. split; apply Nat.ltb_lt; cbn; lia.
  - rewrite (rfind_append "." stem "_converted.txt" 10 eq_refl).
    rewrite length_append, drop_append.
    replace ((0 <? String.length stem + 10)
             && (String.length stem + 10
                 <? String.length stem + String.length "_converted.txt" - 1))
      with true; [reflexivity|].
    symmetry. apply andb_true_iff. split; apply Nat.ltb_lt; cbn; lia.
Qed.

Lemma output_not_urpx (out : path) (stem mode : string) :
  App.is_urpx (Path.child out (output_name stem mode)) = false.
Proof.
  unfold App.is_urpx, Path.suffix, Path.name, Path.child.
  rewrite last_last, output_suffix. now destruct (String.eqb mode "script").
Qed.

Section BatchProperties.
Variable json_loads : string -> option value.
Variable room : nat.

(** X20. With files and an output directory, [_convert] tries every file
    once, in order, whether or not earlier ones failed: the error lines and
    the converted names together are as many as the files, and the progress
    bar ends at its maximum.  With no error line the [Done] box lists the
    converted names; with one or more the [Errors] box shows the error
    lines only, their files in the order of the list. *)
Theorem convert_tries_every_file
    (st : App.state) (out : path) (fs fs' : filesystem) (r : App.report) :
  App.files st <> [] ->
  App.output_dir st = Some out ->
  App._convert json_loads room st fs = (r, fs') ->
  App.progress r = Some (length (App.files st), length (App.files st)) /\
  exists t,
    App.convert_loop json_loads room out (App.mode st) (App.files st)
      (App.make_tally [] [] 0) fs = (t, fs') /\
    length (App.errors t) + length (App.done t) = length (App.files st) /\
    ((App.errors t = [] /\
      App.shown r
      = App.ShowInfo "Done" ("Converted:" +:+ LF +:+ PyStr.join LF (App.done t))) \/
     (App.errors t <> [] /\
      App.shown r = App.ShowError "Errors" (App.errors t) /\
      sublist (map fst (App.errors t)) (map Path.name (App.files st)))).
Proof.
  intros Hfiles Hout Hconv. unfold App._convert in Hconv. rewrite Hout in Hconv.
  destruct (App.files st) as [|fp fps] eqn:Hfs; [congruence|].
  destruct (App.convert_loop json_loads room out (App.mode st) (fp :: fps)
              (App.make_tally [] [] 0) fs) as [t fs1] eqn:Hloop.
  injection Hconv as <- <-.
  destruct (convert_loop_tally _ _ _ _ _ _ _ _ _ Hloop) as (Hlen & Hval & es & Hes & Hsub).
  cbn [App.errors App.done App.value app length Nat.add] in Hlen, Hval, Hes.
  cbn [App.progress App.shown]. split; [now rewrite Hval|].
  exists t. split; [reflexivity|]. split; [exact Hlen|].
  destruct (App.errors t) as [|e es']; [left; auto|].
  right. split; [discriminate|]. split; [reflexivity|]. now rewrite Hes.
Qed.

(** X21. When [_convert] shows the [Done] box, every job has succeeded:
    the message lists the output name of every file, in order, and every
    one of these output files is in the output directory. *)
Theorem done_box_lists_outputs
    (st : App.state) (fs fs' : filesystem) (r : App.report) (title message : string) :
  App._convert json_loads room st fs = (r, fs') ->
  App.shown r = App.ShowInfo title message ->
  title = "Done" /\
  message = "Converted:" +:+ LF +:+
            PyStr.join LF
              (map (fun fp => output_name (Path.stem fp) (App.mode st)) (App.files st)) /\
  exists out,
    App.output_dir st = Some out /\
    forall fp, fp ∈ App.files st ->
      exists text,
        fs' !! Path.child out (output_name (Path.stem fp) (App.mode st))
        = Some (File text).
Proof.
  unfold App._convert.
  destruct (App.files st) as [|fp fps] eqn:Hfs; [intros [= <- <-]; discriminate|].
  destruct (App.output_dir st) as [out|]; [|intros [= <- <-]; discriminate].
  destruct (App.convert_loop json_loads room out (App.mode st) (fp :: fps)
              (App.make_tally [] [] 0) fs) as [t fs1] eqn:Hloop.
  intros [= <- <-]. cbn [App.shown].
  destruct (App.errors t) as [|e es] eqn:He; [|discriminate].
  intros [= <- <-].
  destruct (convert_loop_clean _ _ _ _ _ _ _ _ _ Hloop He) as (Hdone & Hfiles).
  cbn [App.done app] in Hdone. rewrite Hdone.
  split; [reflexivity|]. split; [reflexivity|]. eauto.
Qed.

(** X22. [_convert] never changes a path with the suffix [.urpx]: the files
    it writes, or opens and leaves empty, end in [.script] or [.txt].  So the files of a consistent
    window, which all have that suffix, are as they were, whatever the
    outcome of the jobs. *)
Theorem convert_keeps_sources
    (st : App.state) (fs fs' : filesystem) (r : App.report) :
  App._convert json_loads room st fs = (r, fs') ->
  (forall p : path, App.is_urpx p = true -> fs' !! p = fs !! p) /\
  (consistent st = true ->
   forall fp, fp ∈ App.files st -> fs' !! fp = fs !! fp).
Proof.
  intros Hconv.
  assert (Hkeep : forall p : path, App.is_urpx p = true -> fs' !! p = fs !! p).
  { intros p Hp. unfold App._convert in Hconv.
    destruct (App.files st) as [|fp fps]; [now injection Hconv as _ <-|].
    destruct (App.output_dir st) as [out|]; [|now injection Hconv as _ <-].
    destruct (App.convert_loop json_loads room out (App.mode st) (fp :: fps)
                (App.make_tally [] [] 0) fs) as [t fs1] eqn:Hloop.
    injection Hconv as _ <-.
    apply (convert_loop_frame _ _ _ _ _ _ _ _ _ _ Hloop).
    intros fp' _ ->. now rewrite output_not_urpx in Hp. }
  split; [exact Hkeep|].
  intros Hc fp Hin. apply Hkeep.
  apply consistent_spec in Hc as (_ & _ & _ & _ & Hall).
  rewrite forallb_forall in Hall. apply Hall, list_elem_of_In, Hin.
Qed.
End BatchProperties.

Lemma convert_tries_every_file_window :
  App.progress (fst (App._convert Sample.loads 1000 Sample.window Sample.disk)) = Some (2, 2) /\
  App.shown (fst (App._convert Sample.loads 1000 Sample.window Sample.disk))
  = App.ShowError "Errors" [("broken.urpx", JSONDecodeError)].
Proof.
  destruct (convert_tries_every_file Sample.loads 1000 Sample.window Sample.out_dir
              Sample.disk _ _ ltac:(discriminate) eq_refl eq_refl) as (Hp & _).
  split; [exact Hp | reflexivity].
Defined.

Lemma done_box_lists_outputs_window :
  App.shown (fst (App._convert Sample.loads 1000 Sample.window_one Sample.disk))
  = App.ShowInfo "Done" ("Converted:" +:+ LF +:+ "cell_converted.txt").
Proof.
  destruct (done_box_lists_outputs Sample.loads 1000 Sample.window_one Sample.disk _ _
              "Done" ("Converted:" +:+ LF +:+ "cell_converted.txt") eq_refl eq_refl)
    as (_ & _ & _).
  reflexivity.
Defined.

Lemma convert_keeps_sources_window :
  consistent Sample.window = true /\
  snd (App._convert Sample.loads 1000 Sample.window Sample.disk) !! Sample.source
  = Sample.disk !! Sample.source.
Proof.
  split; [reflexivity|].
  refine (proj2 (convert_keeps_sources Sample.loads 1000 Sample.window Sample.disk _ _ eq_refl)
            eq_refl Sample.source _).
  apply elem_of_cons. now left.
Defined.

(** ** The dropped paths *)

Lemma append_nil_r (a : string) : a +:+ EmptyString = a.
Proof.
  induction a as [|x a IH]; [reflexivity|].
  change (String x (a +:+ EmptyString) = String x a). now rewrite IH.
Qed.

Lemma join_cons2 sep (w w2 : string) ws :
  PyStr.join sep (w :: w2 :: ws) = w +:+ sep +:+ PyStr.join sep (w2 :: ws).
Proof. reflexivity. Qed.

Lemma split_blank_word (w : string) :
  forallb (fun c => negb (PyStr.is_space c)) (list_ascii_of_string w) = true ->
  forall cur rest,
    PyStr.split_blank_from cur (w +:+ rest) = PyStr.split_blank_from (cur +:+ w) rest.
Proof.
  induction w as [|c w IH]; intros Hw cur rest.
  - now rewrite append_nil_r.
  - cbn in Hw. apply andb_prop in Hw as [Hc Hw]. apply negb_true_iff in Hc.
    change (String c w +:+ rest) with (String c (w +:+ rest)).
    cbn [PyStr.split_blank_from]. rewrite Hc, (IH Hw), append_assoc. reflexivity.
Qed.

(** X23. Off Windows the dropped text is cut at its blanks: words without
    blanks, joined by single blanks, come back as they were.  A path that
    holds a blank is a join of two or more such words, so it comes back in
    pieces. *)
Theorem parse_paths_words (ws : list string) :
  forallb plain_word ws = true ->
  App._parse_paths false (PyStr.join " " ws) = ws.
Proof.
  unfold App._parse_paths, PyStr.split_blank.
  induction ws as [|w ws IH]; intros Hall; [reflexivity|].
  cbn [forallb] in Hall. apply andb_prop in Hall as [Hw Hrest].
  apply andb_prop in Hw as [Hne Hw]. apply negb_true_iff in Hne.
  destruct ws as [|w2 ws].
  - cbn [PyStr.join String.concat].
    rewrite <- (append_nil_r w) at 1. rewrite (split_blank_word w Hw). cbn.
    destruct w; [discriminate | reflexivity].
  - rewrite join_cons2, (split_blank_word w Hw). cbn [String.append].
    change (" " +:+ PyStr.join " " (w2 :: ws))
      with (String " " (PyStr.join " " (w2 :: ws))).
    cbn [PyStr.split_blank_from]. cbn [PyStr.is_space PyStr.code].
    replace (PyStr.is_space " ") with true by reflexivity.
    destruct w; [discriminate|]. f_equal. apply IH, Hrest.
Qed.

Lemma parse_paths_words_blank :
  App._parse_paths false "/home/ur/my cell.urpx" = ["/home/ur/my"; "cell.urpx"].
Proof. exact (parse_paths_words ["/home/ur/my"; "cell.urpx"] eq_refl). Defined.

Lemma no_brace_char c :
  PyStr.has_char c "{}" = false ->
  Ascii.eqb "{" c = false /\ Ascii.eqb "}" c = false.
Proof.
  unfold PyStr.has_char. cbn [PyStr.rfind].
  destruct (Ascii.eqb "}" c); [discriminate|].
  destruct (Ascii.eqb "{" c); [discriminate|]. auto.
Qed.

Lemma lstrip_braceless (w : string) :
  forallb (fun c => negb (PyStr.has_char c "{}")) (list_ascii_of_string w) = true ->
  forall rest, PyStr.lstrip_chars "{}" (w +:+ rest) =
               match w with
               | EmptyString => PyStr.lstrip_chars "{}" rest
               | _ => w +:+ rest
               end.
Proof.
  intros Hw rest. destruct w as [|c w]; [reflexivity|].
  cbn in Hw. apply andb_prop in Hw as [Hc _]. apply negb_true_iff in Hc.
  change (String c w +:+ rest) with (String c (w +:+ rest)).
  cbn [PyStr.lstrip_chars]. now rewrite Hc.
Qed.

Lemma rstrip_braceless (w : string) :
  forallb (fun c => negb (PyStr.has_char c "{}")) (list_ascii_of_string w) = true ->
  PyStr.rstrip_chars "{}" w = w.
Proof.
  induction w as [|c w IH]; intros Hw; [reflexivity|].
  cbn in Hw. apply andb_prop in Hw as [Hc Hw]. apply negb_true_iff in Hc.
  cbn [PyStr.rstrip_chars]. rewrite (IH Hw), Hc. now destruct w.
Qed.

Lemma rstrip_kept chars (a b : string) :
  PyStr.rstrip_chars chars b = b -> b <> EmptyString ->
  PyStr.rstrip_chars chars (a +:+ b) = a +:+ b.
Proof.
  intros Hb Hne. induction a as [|x a IH]; [exact Hb|].
  change (String x a +:+ b) with (String x (a +:+ b)).
  cbn [PyStr.rstrip_chars]. rewrite IH.
  destruct (a +:+ b) eqn:E; [|reflexivity].
  exfalso. apply Hne. apply (f_equal String.length) in E.
  rewrite length_append in E. destruct b; [reflexivity | cbn in E; lia].
Qed.

Lemma rstrip_closing (b : string) :
  PyStr.rstrip_chars "{}" (b +:+ "}") = PyStr.rstrip_chars "{}" b.
Proof.
  induction b as [|x b IH]; [reflexivity|].
  change (String x b +:+ "}") with (String x (b +:+ "}")).
  cbn [PyStr.rstrip_chars]. now rewrite IH.
Qed.

Lemma split_braceless (w : string) :
  forallb (fun c => negb (PyStr.has_char c "{}")) (list_ascii_of_string w) = true ->
  forall cur rest,
    PyStr.split_from 0 "} {" cur (w +:+ rest)
    = PyStr.split_from 0 "} {" (cur +:+ w) rest.
Proof.
  induction w as [|c w IH]; intros Hw cur rest.
  - now rewrite append_nil_r.
  - cbn in Hw. apply andb_prop in Hw as [Hc Hw]. apply negb_true_iff in Hc.
    destruct (no_brace_char c Hc) as [_ Hclose].
    change (String c w +:+ rest) with (String c (w +:+ rest)).
    cbn [PyStr.split_from String.prefix].
    destruct (Ascii.ascii_dec "}" c) as [<-|_]; [discriminate|].
    rewrite (IH Hw), append_assoc. reflexivity.
Qed.

Lemma split_separator cur (rest : string) :
  PyStr.split_from 0 "} {" cur ("} {" +:+ rest)
  = cur :: PyStr.split_from 0 "} {" EmptyString rest.
Proof. destruct rest; reflexivity. Qed.

Lemma join_braceless_nonempty (w : string) ws :
  w <> EmptyString -> PyStr.join "} {" (w :: ws) <> EmptyString.
Proof.
  intros Hw. destruct ws as [|w2 ws]; [exact Hw|].
  rewrite join_cons2. destruct w; [congruence | discriminate].
Qed.

Lemma braceless_inv (w : string) :
  braceless w = true ->
  w <> EmptyString /\
  forallb (fun c => negb (PyStr.has_char c "{}")) (list_ascii_of_string w) = true.
Proof.
  unfold braceless. intros H. apply andb_prop in H as [Hne Hw].
  apply negb_true_iff, String.eqb_neq in Hne. auto.
Qed.

Lemma rstrip_joined ws :
  ws <> [] -> forallb braceless ws = true ->
  PyStr.rstrip_chars "{}" (PyStr.join "} {" ws) = PyStr.join "} {" ws.
Proof.
  induction ws as [|w ws IH]; intros Hne Hall; [congruence|].
  cbn [forallb] in Hall. apply andb_prop in Hall as [Hw Hrest].
  destruct (braceless_inv w Hw) as [Hwne Hwb].
  destruct ws as [|w2 ws]; [exact (rstrip_braceless w Hwb)|].
  rewrite join_cons2.
  assert (Hrest' := Hrest). cbn [forallb] in Hrest'.
  apply andb_prop in Hrest' as [Hw2 _]. destruct (braceless_inv w2 Hw2) as [Hw2ne _].
  apply rstrip_kept.
  - apply rstrip_kept; [apply IH; [discriminate | exact Hrest]|].
    now apply join_braceless_nonempty.
  - discriminate.
Qed.

Lemma split_joined ws :
  ws <> [] -> forallb braceless ws = true ->
  PyStr.split (PyStr.join "} {" ws) "} {" = ws.
Proof.
  unfold PyStr.split.
  induction ws as [|w ws IH]; intros Hne Hall; [congruence|].
  cbn [forallb] in Hall. apply andb_prop in Hall as [Hw Hrest].
  destruct (braceless_inv w Hw) as [_ Hwb].
  destruct ws as [|w2 ws].
  - cbn [PyStr.join String.concat].
    rewrite <- (append_nil_r w) at 1. now rewrite (split_braceless w Hwb).
  - rewrite join_cons2, (split_braceless w Hwb), split_separator.
    cbn [String.append]. f_equal. apply IH; [discriminate | exact Hrest].
Qed.

Lemma strip_braceless_all ws :
  forallb braceless ws = true ->
  map (fun p => PyStr.strip_chars p "{}") ws = ws.
Proof.
  induction ws as [|w ws IH]; intros Hall; [reflexivity|].
  cbn [forallb] in Hall. apply andb_prop in Hall as [Hw Hrest].
  destruct (braceless_inv w Hw) as [Hne Hwb].
  cbn [map]. rewrite (IH Hrest). f_equal.
  unfold PyStr.strip_chars.
  rewrite <- (append_nil_r w) at 1. rewrite (lstrip_braceless w Hwb).
  destruct w; [congruence|]. rewrite append_nil_r. exact (rstrip_braceless _ Hwb).
Qed.

(** X24. On Windows the dropped text, each path in braces and a blank
    between them, is cut back into the paths: paths that are not empty and
    hold no brace come back as they were, blanks inside them included. *)
Theorem parse_paths_braced (ws : list string) :
  ws <> [] ->
  forallb braceless ws = true ->
  App._parse_paths true ("{" +:+ PyStr.join "} {" ws +:+ "}") = ws.
Proof.
  intros Hne Hall. unfold App._parse_paths, PyStr.strip_chars.
  assert (Hstrip :
    PyStr.rstrip_chars "{}" (PyStr.lstrip_chars "{}" ("{" +:+ PyStr.join "} {" ws +:+ "}"))
    = PyStr.join "} {" ws).
  { change (PyStr.lstrip_chars "{}" ("{" +:+ PyStr.join "} {" ws +:+ "}"))
      with (PyStr.lstrip_chars "{}" (PyStr.join "} {" ws +:+ "}")).
    destruct ws as [|w ws]; [congruence|].
    assert (Hall' := Hall). cbn [forallb] in Hall'.
    apply andb_prop in Hall' as [Hw _]. destruct (braceless_inv w Hw) as [Hwne Hwb].
    assert (Hhead : exists c tail, PyStr.join "} {" (w :: ws) = String c tail /\
                                   PyStr.has_char c "{}" = false).
    { destruct w as [|c w]; [congruence|].
      cbn in Hwb. apply andb_prop in Hwb as [Hc _]. apply negb_true_iff in Hc.
      destruct ws as [|w2 ws]; [exists c, w; auto|].
      rewrite join_cons2. eexists c, _. split; [reflexivity | exact Hc]. }
    destruct Hhead as (c & tail & Hj & Hc).
    rewrite Hj at 1.
    change (String c tail +:+ "}") with (String c (tail +:+ "}")).
    cbn [PyStr.lstrip_chars]. rewrite Hc.
    change (String c (tail +:+ "}")) with (String c tail +:+ "}").
    rewrite <- Hj, rstrip_closing. now apply rstrip_joined. }
  rewrite Hstrip, (split_joined ws Hne Hall). now apply strip_braceless_all.
Qed.

Lemma parse_paths_braced_sample :
  App._parse_paths true "{C:/my cells/a.urpx} {C:/b.urpx}"
  = ["C:/my cells/a.urpx"; "C:/b.urpx"].
Proof.
  exact (parse_paths_braced ["C:/my cells/a.urpx"; "C:/b.urpx"]
           ltac:(discriminate) eq_refl).
Defined.

(** ** From the drop to the batch *)

Section Pipeline.
Variable to_path : string -> path.
Variable json_loads : string -> option value.
Variable room : nat.

Lemma add_files_keep_consistent (paths : list string) :
  forall st st' : App.state,
    consistent st = true ->
    App._add_files to_path st paths = Some st' ->
    consistent st' = true.
Proof.
  induction paths as [|p rest IH]; intros st st' Hc Hadd; cbn [App._add_files] in Hadd.
  - now injection Hadd as <-.
  - destruct (App.add_file to_path st p) as [st1|] eqn:H1; [|discriminate].
    exact (IH st1 st' (add_file_consistent to_path st st1 p Hc H1) Hadd).
Qed.

Lemma choose_output_consistent (st : App.state) (folder : string) :
  consistent (App._choose_output to_path st folder) = consistent st.
Proof. unfold App._choose_output. now destruct (truthy (VStr folder)). Qed.

Lemma convert_frame (st : App.state) (fs : filesystem) (p : path) :
  App.is_urpx p = true ->
  snd (App._convert json_loads room st fs) !! p = fs !! p.
Proof.
  intros Hp. unfold App._convert.
  destruct (App.files st) as [|fp fps]; [reflexivity|].
  destruct (App.output_dir st) as [out|]; [|reflexivity].
  destruct (App.convert_loop json_loads room out (App.mode st) (fp :: fps)
              (App.make_tally [] [] 0) fs) as [t fs1] eqn:Hloop.
  cbn [snd].
  apply (convert_loop_frame json_loads room _ _ _ _ _ _ _ _ Hloop).
  intros fp' _ ->. now rewrite output_not_urpx in Hp.
Qed.

(** X25. From a consistent window, such as the one that opens: whatever
    is dropped on it, whichever folder is chosen and whatever the jobs do,
    [_convert] leaves every file of the list as it was.  The converter does
    not overwrite its inputs. *)
Theorem dropped_sources_kept
    (win32 : bool) (data folder : string) (st0 st : App.state) (fs : filesystem)
    (fp : path) :
  consistent st0 = true ->
  App._on_drop to_path win32 st0 data = Some st ->
  fp ∈ App.files (App._choose_output to_path st folder) ->
  snd (App._convert json_loads room (App._choose_output to_path st folder) fs) !! fp
  = fs !! fp.
Proof.
  intros Hc0 Hdrop Hin. apply convert_frame.
  assert (Hc : consistent (App._choose_output to_path st folder) = true).
  { rewrite choose_output_consistent.
    exact (add_files_keep_consistent _ st0 st Hc0 Hdrop). }
  apply consistent_spec in Hc as (_ & _ & _ & _ & Hall).
  rewrite forallb_forall in Hall. apply Hall, list_elem_of_In, Hin.
Qed.
End Pipeline.

Lemma dropped_sources_kept_sample :
  snd (App._convert Sample.loads 1000
         (App.make_state [["in"; "cell.urpx"]]
            [App.make_row ["in"; "cell.urpx"] "cell.urpx" "odd"]
            (Some ["out"]) "script")
         Sample.disk) !! ["in"; "cell.urpx"]
  = Sample.disk !! ["in"; "cell.urpx"].
Proof.
  refine (dropped_sources_kept Sample.to_path Sample.loads 1000 false
            "in/cell.urpx in/notes.txt" "out" App.initial _ Sample.disk
            ["in"; "cell.urpx"] eq_refl eq_refl _).
  apply elem_of_cons. now left.
Defined.
